(** * The worker runtime of syft/workers/base.py

    A shallow embedding of [BaseWorker]: the worker registry, the object
    store it drives, the message router, remote command execution with its
    return-id renegotiation, and the tag search.

    Python objects live on a heap and are shared by reference.  Here a
    stored object is identified by the key it is stored under, a worker by a
    handle, and every method that mutates the worker is a function from the
    state before the call to a result and the state after it.  A raised
    exception keeps the mutations done before the [raise], as in Python. *)

From Stdlib Require Import ZArith String List Bool Lia.
From stdpp Require Import base option countable gmap sets list strings fin_maps.

#[local] Set Warnings "-clear-no-such-hyp".

Open Scope Z_scope.
Open Scope string_scope.

(** ** Ids, tags and query terms

    Object ids, worker ids and query terms are [Union[str, int]].  An [int]
    never equals a [str]. *)

Inductive Key :=
| KInt (z : Z)
| KStr (s : string).

#[global] Instance Key_eq_dec : EqDecision Key.
Proof. solve_decision. Defined.

#[global] Instance Key_countable : Countable Key.
Proof.
  refine (inj_countable'
            (fun k => match k with KInt z => inl z | KStr s => inr s end)
            (fun x => match x with inl z => KInt z | inr s => KStr s end) _).
  intros [z|s]; reflexivity.
Defined.

(** ** Exceptions and results *)

Inductive Exn :=
| ResponseSignatureError (ids_generated : list Key)
| WorkerNotFoundException
| ObjectNotFoundError (k : Key)
| GetNotPermittedError
| PlanCommandUnknownError (name : string)
| NotImplementedError
| AssertionError
| TypeError
| KeyError
| AttributeError
| UnicodeDecodeError
| RuntimeError.

Inductive Result (A : Type) :=
| Ok (a : A)
| Raise (e : Exn).

Arguments Ok {A} a.
Arguments Raise {A} e.

(** ** Stored objects

    The runtime never looks inside an object; it only probes a handful of
    optional attributes with [hasattr], and tests the object's truth value.
    An attribute that may be missing is an [option]: [None] is "hasattr gives
    False".  The truth value is what [bool(obj)] comes to: true for an
    object of a class that defines neither [__bool__] nor [__len__], and for
    the others whatever that method returns or raises (a tensor of several
    elements raises). *)

Definition User := option string.

(** [obj.child]: the next element of the wrapper chain.  Its
    [garbage_collect_data] is [Some flag] when the child has the method
    [set_garbage_collect_data], [None] when it does not. *)
Record Child := mkChild {
  garbage_collect_data : option bool
}.

Record Obj := mkObj {
  obj_id : Key;                       (* obj.id *)
  obj_tags : gset Key;                (* obj.tags *)
  obj_private : option bool;          (* obj.private, when the attribute exists *)
  obj_child : option Child;           (* obj.child, when the attribute exists *)
  obj_allow : option (User -> bool);  (* obj.allow, when the attribute exists *)
  obj_origin : option Key;            (* obj.origin *)
  obj_id_at_origin : option Key;      (* obj.id_at_origin *)
  obj_pointable : bool;               (* has create_pointer and is no Protocol *)
  obj_data : Z;                       (* the payload, opaque to the worker *)
  obj_bool : Result bool              (* bool(obj), as [if obj:] evaluates it *)
}.

Definition with_id (k : Key) (o : Obj) : Obj :=
  mkObj k (obj_tags o) (obj_private o) (obj_child o) (obj_allow o)
    (obj_origin o) (obj_id_at_origin o) (obj_pointable o) (obj_data o) (obj_bool o).

Definition with_child (c : option Child) (o : Obj) : Obj :=
  mkObj (obj_id o) (obj_tags o) (obj_private o) c (obj_allow o)
    (obj_origin o) (obj_id_at_origin o) (obj_pointable o) (obj_data o) (obj_bool o).

Definition with_origin (origin id_at_origin : option Key) (o : Obj) : Obj :=
  mkObj (obj_id o) (obj_tags o) (obj_private o) (obj_child o) (obj_allow o)
    origin id_at_origin (obj_pointable o) (obj_data o) (obj_bool o).

(** [child.set_garbage_collect_data(value)] *)
Definition set_garbage_collect_data (value : bool) (c : Child) : Child :=
  mkChild (Some value).

(** ** The object store

    Modelled from the spec: the class [ObjectStore]
    (syft/generic/object_storage.py) is not part of the sources.  The spec
    describes it as a per-worker map from object id to owned object plus a tag
    index that is kept in step with the map: [get(id)] gives the entry or
    fails with not-found, [find_by_id] gives the entry or nothing,
    [find_by_tag] is exact tag membership, [register] stores under the given
    id (or the object's own), [deregister] and [remove]/[force_remove] drop
    the entry.  The tag index is therefore computed from the map. *)

Record ObjectStore := mkStore {
  _objects : gmap Key Obj
}.

Definition store_empty : ObjectStore := mkStore ∅.

Definition store_get_obj (st : ObjectStore) (k : Key) : Result Obj :=
  match _objects st !! k with
  | Some o => Ok o
  | None => Raise (ObjectNotFoundError k)
  end.

Definition find_by_id (st : ObjectStore) (k : Key) : option Obj :=
  _objects st !! k.

Definition has_tag (tag : Key) (o : Obj) : bool :=
  bool_decide (tag ∈ obj_tags o).

(** The ids of the objects carrying [tag]: the entry of the tag index. *)
Definition find_by_tag (st : ObjectStore) (tag : Key) : gset Key :=
  dom (filter (fun kv => has_tag tag kv.2 = true) (_objects st)).

(** The union of all the entries of the tag index,
    [_tag_to_object_ids.items()] folded with [union]. *)
Definition tagged_object_ids (st : ObjectStore) : gset Key :=
  dom (filter (fun kv => obj_tags kv.2 ≠ ∅) (_objects st)).

Definition store_register_obj (st : ObjectStore) (o : Obj) (k : option Key) : ObjectStore :=
  let o' := match k with Some k' => with_id k' o | None => o end in
  mkStore (<[obj_id o' := o']> (_objects st)).

Definition rm_obj (st : ObjectStore) (k : Key) : ObjectStore :=
  mkStore (delete k (_objects st)).

Definition force_rm_obj (st : ObjectStore) (k : Key) : ObjectStore :=
  mkStore (delete k (_objects st)).

(** [de_register_obj(obj)]: drops the entry of [obj]; there is nothing to
    drop for [None]. *)
Definition store_de_register_obj (st : ObjectStore) (o : option Obj) : ObjectStore :=
  match o with
  | Some o' => rm_obj st (obj_id o')
  | None => st
  end.

Definition clear_objects (st : ObjectStore) : ObjectStore := store_empty.

(** ** Workers

    A worker object is referred to by a handle: its address, and the id it
    answers to ([worker.id]). *)

Record WorkerHandle := mkHandle {
  handle_addr : nat;
  handle_id : Key
}.

#[global] Instance WorkerHandle_eq_dec : EqDecision WorkerHandle.
Proof. solve_decision. Defined.

(** An argument or a result that is a worker id or a worker. *)
Inductive IdOrWorker :=
| AnId (k : Key)
| AWorker (w : WorkerHandle).

#[global] Instance IdOrWorker_eq_dec : EqDecision IdOrWorker.
Proof. solve_decision. Defined.

(** ** Values, pointers, actions and messages *)

(** A [PointerTensor]: a reference to the object [id_at_location] held by
    the worker [location]. *)
Record PointerTensor := mkPointer {
  location : IdOrWorker;
  id_at_location : Key;
  owner : WorkerHandle;
  pointer_id : Key
}.

(** The Python values that travel as arguments and responses.  A float is
    carried as an opaque bit pattern: the runtime only tests its type. *)
Inductive Value :=
| VNone
| VInt (z : Z)
| VFloat (bits : Z)
| VBool (b : bool)
| VStr (s : string)
| VBytes (s : string)
| VObj (o : Obj)
| VPointer (p : PointerTensor).

(** A response is one value, or a tuple (or list) of values. *)
Inductive PyVal :=
| One (v : Value)
| Many (l : list Value).

Definition PyNone : PyVal := One VNone.

Definition Kwargs := list (string * Value).

Record ComputationAction := mkComputation {
  name : string;
  target : option Value;
  args : list Value;
  kwargs : Kwargs;
  return_ids : list Key;
  return_value : bool
}.

Record CommunicationAction := mkCommunication {
  comm_target : Obj;
  comm_args : list Key;
  comm_kwargs : Kwargs
}.

Inductive Action :=
| Computation (a : ComputationAction)
| Communication (a : CommunicationAction).

(** The query of a search: one term, or a list of terms. *)
Inductive Query :=
| QTerm (k : Key)
| QList (l : list Key).

Inductive Message :=
| TensorCommandMessage (action : Action)
| PlanCommandMessage (command_name : string) (plan_args : list Value)
| WorkerCommandMessage (command_name : string) (cmd_args : list Value)
    (cmd_kwargs : Kwargs) (cmd_return_ids : list Key)
| ObjectMessage (object : Obj)
| ObjectRequestMessage (object_id : Key) (user : User) (reason : string)
| ForceObjectDeleteMessage (object_id : Key)
| IsNoneMessage (object_id : Key)
| GetShapeMessage (tensor_id : Key)
| SearchMessage (query : Query).

(** [type(msg)], the keys of the message router. *)
Inductive MsgType :=
| TensorCommandMessageT
| PlanCommandMessageT
| WorkerCommandMessageT
| ObjectMessageT
| ObjectRequestMessageT
| ForceObjectDeleteMessageT
| IsNoneMessageT
| GetShapeMessageT
| SearchMessageT.

#[global] Instance MsgType_eq_dec : EqDecision MsgType.
Proof. solve_decision. Defined.

Definition MsgType_code (t : MsgType) : nat :=
  match t with
  | TensorCommandMessageT => 0 | PlanCommandMessageT => 1
  | WorkerCommandMessageT => 2 | ObjectMessageT => 3
  | ObjectRequestMessageT => 4 | ForceObjectDeleteMessageT => 5
  | IsNoneMessageT => 6 | GetShapeMessageT => 7 | SearchMessageT => 8
  end%nat.

Definition MsgType_of_code (n : nat) : MsgType :=
  match n with
  | 0 => TensorCommandMessageT | 1 => PlanCommandMessageT
  | 2 => WorkerCommandMessageT | 3 => ObjectMessageT
  | 4 => ObjectRequestMessageT | 5 => ForceObjectDeleteMessageT
  | 6 => IsNoneMessageT | 7 => GetShapeMessageT | _ => SearchMessageT
  end%nat.

#[global] Instance MsgType_countable : Countable MsgType.
Proof.
  refine (inj_countable' MsgType_code MsgType_of_code _).
  intros []; reflexivity.
Defined.

Definition type_of (msg : Message) : MsgType :=
  match msg with
  | TensorCommandMessage _ => TensorCommandMessageT
  | PlanCommandMessage _ _ => PlanCommandMessageT
  | WorkerCommandMessage _ _ _ _ => WorkerCommandMessageT
  | ObjectMessage _ => ObjectMessageT
  | ObjectRequestMessage _ _ _ => ObjectRequestMessageT
  | ForceObjectDeleteMessage _ => ForceObjectDeleteMessageT
  | IsNoneMessage _ => IsNoneMessageT
  | GetShapeMessage _ => GetShapeMessageT
  | SearchMessage _ => SearchMessageT
  end.

(** The methods a router entry can name. *)
Inductive Handler :=
| execute_tensor_command_h
| execute_plan_command_h
| execute_worker_command_h
| handle_object_msg_h
| respond_to_obj_req_h
| handle_delete_object_msg_h
| handle_force_delete_object_msg_h
| is_object_none_h
| handle_get_shape_message_h
| respond_to_search_h.

#[global] Instance Handler_eq_dec : EqDecision Handler.
Proof. solve_decision. Defined.

(** A Python dict literal: the entries are stored from first to last, so a
    key written twice keeps the value of its last entry. *)
Definition dict_literal {K V} `{Countable K} (entries : list (K * V)) : gmap K V :=
  foldl (fun d kv => <[kv.1 := kv.2]> d) ∅ entries.

(** ** The id provider

    Modelled from the spec: [sy.ID_PROVIDER] (syft/generic/id_provider.py) is
    not part of the sources.  It hands out ids that it has not handed out
    before; ids queued with [set_next_ids] are handed out first; while
    recording is on, every id handed out is appended to the record. *)

Record IdProvider := mkProvider {
  given_ids : list Key;
  next_fresh : Z;
  record_ids : bool;
  recorded_ids : list Key
}.

Definition provider_pop (p : IdProvider) : Key * IdProvider :=
  let '(k, given, fresh) :=
    match given_ids p with
    | k :: rest => (k, rest, next_fresh p)
    | [] => (KInt (next_fresh p), [], next_fresh p + 1)
    end in
  (k, mkProvider given fresh (record_ids p)
        (if record_ids p then recorded_ids p ++ [k] else recorded_ids p)).

Definition provider_set_next_ids (ids : list Key) (p : IdProvider) : IdProvider :=
  mkProvider (given_ids p ++ ids) (next_fresh p) (record_ids p) (recorded_ids p).

Definition provider_start_recording_ids (p : IdProvider) : IdProvider :=
  mkProvider (given_ids p) (next_fresh p) true [].

Definition provider_get_recorded_ids (p : IdProvider) : list Key * IdProvider :=
  (recorded_ids p, mkProvider (given_ids p) (next_fresh p) false []).

(** ** The worker and its surroundings *)

Record BaseWorker := mkWorker {
  self : WorkerHandle;                   (* the worker object; self.id is its id *)
  is_client_worker : bool;
  log_msgs : bool;
  msg_history : list Message;
  object_store : ObjectStore;
  _known_workers : gmap Key WorkerHandle
}.

Definition worker_id (w : BaseWorker) : Key := handle_id (self w).

Definition with_store (st : ObjectStore) (w : BaseWorker) : BaseWorker :=
  mkWorker (self w) (is_client_worker w) (log_msgs w) (msg_history w) st
    (_known_workers w).

Definition with_known_workers (kw : gmap Key WorkerHandle) (w : BaseWorker) : BaseWorker :=
  mkWorker (self w) (is_client_worker w) (log_msgs w) (msg_history w)
    (object_store w) kw.

Definition with_is_client_worker (b : bool) (w : BaseWorker) : BaseWorker :=
  mkWorker (self w) b (log_msgs w) (msg_history w) (object_store w)
    (_known_workers w).

Definition with_msg_history (h : list Message) (w : BaseWorker) : BaseWorker :=
  mkWorker (self w) (is_client_worker w) (log_msgs w) h (object_store w)
    (_known_workers w).

(** What [workers] can be in [send]: one worker (or id), or a list or tuple
    of them. *)
Inductive Workers :=
| OneWorker (w : IdOrWorker)
| WorkerList (l : list IdOrWorker).

(** What [get_worker] accepts: [bytes] (the utf-8 text of an id), an id, or
    a worker. *)
Inductive WorkerArg :=
| ArgBytes (text : string)
| ArgId (k : Key)
| ArgWorker (w : WorkerHandle).

(** What a method is invoked on, once the target of an action is resolved. *)
Inductive Callee :=
| OnWorker
| OnObject (o : Obj)
| OnValue (v : Value).

(** Where [register_response] takes its ids from: a list of ids, or the id
    provider.  Both are used through [pop]. *)
Inductive IdSource :=
| ListIds (l : list Key)
| ProviderIds.

(** ** Methods as state transformers

    A method maps the state before the call to a result and the state after
    it; an exception carries the state reached when it was raised. *)

Definition M (S A : Type) : Type := S -> Result A * S.

Definition ret {S A} (a : A) : M S A := fun s => (Ok a, s).

Definition raise {S A} (e : Exn) : M S A := fun s => (Raise e, s).

Definition bind {S A B} (c : M S A) (k : A -> M S B) : M S B :=
  fun s =>
    match c s with
    | (Ok a, s') => k a s'
    | (Raise e, s') => (Raise e, s')
    end.

(** [try: c except ResponseSignatureError as e: h e.ids_generated] *)
Definition except_ResponseSignatureError {S A} (c : M S A) (h : list Key -> M S A) : M S A :=
  fun s =>
    match c s with
    | (Raise (ResponseSignatureError ids), s') => h ids s'
    | r => r
    end.

(** [try: c except TypeError: h] *)
Definition except_TypeError {S A} (c : M S A) (h : M S A) : M S A :=
  fun s =>
    match c s with
    | (Raise TypeError, s') => h s'
    | r => r
    end.

Notation "x <- c ;; k" := (bind c (fun x => k))
  (at level 100, c at next level, right associativity).
Notation "c ;;; k" := (bind c (fun _ => k))
  (at level 100, right associativity).

(** [of_result r]: return or raise what a pure computation gave. *)
Definition of_result {S A} (r : Result A) : M S A := fun s => (r, s).

(** ** Decoding bytes

    A [bytes] value is its sequence of bytes.  A [str] is carried as its
    UTF-8 encoding, so that decoding is the identity on the bytes that are
    well-formed UTF-8 and raises [UnicodeDecodeError] on the others, as
    [bytes.decode("utf-8")] and [str(b, "utf-8")] do: no overlong form, no
    surrogate, nothing above U+10FFFF, no truncated sequence. *)

Definition bytes_of (text : string) : list Z :=
  (fun a => Z.of_N (Ascii.N_of_ascii a)) <$> list_ascii_of_string text.

Definition in_range (lo hi b : Z) : bool := (lo <=? b)%Z && (b <=? hi)%Z.

(** a continuation byte, [10xxxxxx] *)
Definition continuation (b : Z) : bool := in_range 128 191 b.

Fixpoint utf8_valid (bytes : list Z) : bool :=
  match bytes with
  | [] => true
  | b0 :: rest =>
      if (b0 <=? 127)%Z then utf8_valid rest
      else if in_range 194 223 b0 then
        match rest with
        | b1 :: rest1 => continuation b1 && utf8_valid rest1
        | _ => false
        end
      else if in_range 224 239 b0 then
        match rest with
        | b1 :: b2 :: rest2 =>
            (if (b0 =? 224)%Z then in_range 160 191 b1
             else if (b0 =? 237)%Z then in_range 128 159 b1
             else continuation b1)
            && continuation b2 && utf8_valid rest2
        | _ => false
        end
      else if in_range 240 244 b0 then
        match rest with
        | b1 :: b2 :: b3 :: rest3 =>
            (if (b0 =? 240)%Z then in_range 144 191 b1
             else if (b0 =? 244)%Z then in_range 128 143 b1
             else continuation b1)
            && continuation b2 && continuation b3 && utf8_valid rest3
        | _ => false
        end
      else false
  end.

(** [text.decode("utf-8")] *)
Definition decode_utf8 (text : string) : Result string :=
  if utf8_valid (bytes_of text) then Ok text else Raise UnicodeDecodeError.

(** [arg.decode("utf-8") if isinstance(arg, bytes) else arg] *)
Definition decode_arg (arg : Value) : Result Value :=
  match arg with
  | VBytes text =>
      match decode_utf8 text with
      | Ok decoded => Ok (VStr decoded)
      | Raise e => Raise e
      end
  | _ => Ok arg
  end.

(** The list comprehension over [args_]: the first argument that does not
    decode ends it. *)
Fixpoint decode_args (args_ : list Value) : Result (list Value) :=
  match args_ with
  | [] => Ok []
  | arg :: rest =>
      match decode_arg arg with
      | Raise e => Raise e
      | Ok new_arg =>
          match decode_args rest with
          | Raise e => Raise e
          | Ok new_args => Ok (new_arg :: new_args)
          end
      end
  end.

Section Runtime.

(** The transport.  [_send_msg] is abstract in [BaseWorker]; a subclass
    supplies it.  [Net] is whatever lies behind it. *)
Context {Net : Type}.
Variable _send_msg : Message -> IdOrWorker -> Net -> Result PyVal * Net.

(** The process: this worker, the global id provider, the transport's
    state, and the trace of what was handed to the transport. *)
Record Sys := mkSys {
  this : BaseWorker;
  ID_PROVIDER : IdProvider;
  net : Net;
  wire : list (Message * IdOrWorker)
}.

Definition with_this (w : BaseWorker) (s : Sys) : Sys :=
  mkSys w (ID_PROVIDER s) (net s) (wire s).

Definition with_provider (p : IdProvider) (s : Sys) : Sys :=
  mkSys (this s) p (net s) (wire s).

Definition get_this : M Sys BaseWorker := fun s => (Ok (this s), s).

Definition modify_this (f : BaseWorker -> BaseWorker) : M Sys unit :=
  fun s => (Ok tt, with_this (f (this s)) s).

(** [sy.ID_PROVIDER.pop()] *)
Definition pop : M Sys Key :=
  fun s => let '(k, p) := provider_pop (ID_PROVIDER s) in (Ok k, with_provider p s).

Definition set_next_ids (ids : list Key) : M Sys unit :=
  fun s => (Ok tt, with_provider (provider_set_next_ids ids (ID_PROVIDER s)) s).

Definition start_recording_ids : M Sys unit :=
  fun s => (Ok tt, with_provider (provider_start_recording_ids (ID_PROVIDER s)) s).

Definition get_recorded_ids : M Sys (list Key) :=
  fun s => let '(ids, p) := provider_get_recorded_ids (ID_PROVIDER s) in
           (Ok ids, with_provider p s).

(** *** Registering and looking up objects *)

(** [register_obj(self, obj, obj_id=None)].  The class body defines
    [register_obj] twice; the later definition, this one, is the method. *)
Definition register_obj (obj : Obj) (obj_id : option Key) : M Sys unit :=
  w <- get_this ;;
  if negb (is_client_worker w)
  then modify_this (fun w => with_store (store_register_obj (object_store w) obj obj_id) w)
  else ret tt.

Definition de_register_obj (obj : option Obj) : M Sys unit :=
  w <- get_this ;;
  if negb (is_client_worker w)
  then modify_this (fun w => with_store (store_de_register_obj (object_store w) obj) w)
  else ret tt.

(** [registration_enabled]: entering the context and leaving it. *)
Definition registration_enabled_enter : M Sys unit :=
  modify_this (with_is_client_worker false).

Definition registration_enabled_exit : M Sys unit :=
  modify_this (with_is_client_worker true).

Definition registration_enabled {A} (body : M Sys A) : M Sys A :=
  fun s =>
    let '(_, s1) := registration_enabled_enter s in
    let '(r, s2) := body s1 in
    let '(_, s3) := registration_enabled_exit s2 in
    (r, s3).

(** The object after [obj.child.set_garbage_collect_data(value=False)],
    when [obj] has a child that has that method; [obj] otherwise. *)
Definition gc_forced_off (obj : Obj) : Obj :=
  match obj_child obj with
  | Some c =>
      match garbage_collect_data c with
      | Some _ => with_child (Some (set_garbage_collect_data false c)) obj
      | None => obj
      end
  | None => obj
  end.

(** [get_obj(self, obj_id)].  The object is shared with the store, so the
    store's entry sees the flag written through [obj.child]. *)
Definition get_obj (obj_id : Key) : M Sys (option Obj) :=
  w <- get_this ;;
  match store_get_obj (object_store w) obj_id with
  | Raise e => raise e
  | Ok obj =>
      let obj' := gc_forced_off obj in
      modify_this (fun w =>
        with_store (mkStore (<[obj_id := obj']> (_objects (object_store w)))) w) ;;;
      match obj_private obj' with
      | Some true => ret None
      | _ => ret (Some obj')
      end
  end.

(** [is_object_none(self, msg)] *)
Definition is_object_none (obj_id : Key) : M Sys bool :=
  w <- get_this ;;
  match _objects (object_store w) !! obj_id with
  | None => raise (ObjectNotFoundError obj_id)
  | Some _ =>
      obj <- get_obj obj_id ;;
      ret (match obj with None => true | Some _ => false end)
  end.

(** [respond_to_obj_req(self, msg)] *)
Definition respond_to_obj_req (obj_id : Key) (user : User) (reason : string)
  : M Sys (option Obj) :=
  obj <- get_obj obj_id ;;
  let denied :=
    match obj with
    | Some o => match obj_allow o with Some allow => negb (allow user) | None => false end
    | None => false
    end in
  if denied then raise GetNotPermittedError
  else de_register_obj obj ;;; ret obj.

(** *** The registry of known workers *)

(** [add_worker(self, worker)]; the warning on a replaced entry is only
    logged. *)
Definition add_worker (worker : WorkerHandle) : M Sys unit :=
  modify_this (fun w =>
    with_known_workers (<[handle_id worker := worker]> (_known_workers w)) w).

Fixpoint add_workers (workers : list WorkerHandle) : M Sys unit :=
  match workers with
  | [] => ret tt
  | worker :: rest => add_worker worker ;;; add_workers rest
  end.

(** [remove_worker_from_registry]: [del] of a missing key is a [KeyError]. *)
Definition remove_worker_from_registry (worker_id : Key) : M Sys unit :=
  w <- get_this ;;
  match _known_workers w !! worker_id with
  | None => raise KeyError
  | Some _ => modify_this (fun w => with_known_workers (delete worker_id (_known_workers w)) w)
  end.

Definition _get_worker (worker : WorkerHandle) : M Sys IdOrWorker :=
  w <- get_this ;;
  (if bool_decide (handle_id worker ∈ dom (_known_workers w))
   then ret tt
   else add_worker worker) ;;;
  ret (AWorker worker).

Definition _get_worker_based_on_id (worker_id : Key) (fail_hard : bool) : M Sys IdOrWorker :=
  w <- get_this ;;
  (* A worker should always know itself *)
  if bool_decide (worker_id = handle_id (self w)) then ret (AWorker (self w))
  else
    let worker := default (AnId worker_id) (AWorker <$> _known_workers w !! worker_id) in
    if bool_decide (worker = AnId worker_id)
    then (if fail_hard then raise WorkerNotFoundException else ret worker)
    else ret worker.

Definition get_worker (id_or_worker : WorkerArg) (fail_hard : bool) : M Sys IdOrWorker :=
  match id_or_worker with
  | ArgBytes text =>
      id_or_worker <- of_result (decode_utf8 text) ;;
      _get_worker_based_on_id (KStr id_or_worker) fail_hard
  | ArgId k => _get_worker_based_on_id k fail_hard
  | ArgWorker worker => _get_worker worker
  end.

Definition as_arg (x : IdOrWorker) : WorkerArg :=
  match x with
  | AnId k => ArgId k
  | AWorker w => ArgWorker w
  end.

(** *** Search *)

(** [if results:] on [None] or a set *)
Definition truthy (results : option (gset Key)) : bool :=
  match results with
  | None => false
  | Some r => negb (bool_decide (r = ∅))
  end.

(** [result_by_id = find_by_id(query_item)] followed by [if result_by_id:]:
    the truth value of the object found, which the object may refuse to give,
    and false for [None]. *)
Definition id_hit (st : ObjectStore) (query_item : Key) : Result bool :=
  match find_by_id st query_item with
  | Some result_by_id => obj_bool result_by_id
  | None => Ok false
  end.

(** The loop over the query terms.  A stored object is told from the others
    by its key, so a set of stored objects is the set of their keys. *)
Fixpoint search_loop (st : ObjectStore) (query : list Key) (results : option (gset Key))
  : Result (option (gset Key)) :=
  match query with
  | [] => Ok results
  | query_item :: rest =>
      match id_hit st query_item with
      | Raise e => Raise e
      | Ok true => Ok (Some {[ query_item ]})     (* break *)
      | Ok false =>
          let results_by_tag := find_by_tag st query_item in
          let results' :=
            if truthy results
            then default ∅ results ∩ results_by_tag
            else results_by_tag in
          search_loop st rest (Some results')
      end
  end.

(** [list(results)]: the objects behind the keys. *)
Definition objects_of (st : ObjectStore) (ids : gset Key) : list Obj :=
  omap (fun k => _objects st !! k) (elements ids).

Fixpoint get_objs (ids : list Key) : M Sys (list (option Obj)) :=
  match ids with
  | [] => ret []
  | result_id :: rest =>
      obj <- get_obj result_id ;;
      objs <- get_objs rest ;;
      ret (obj :: objs)
  end.

(** [search(self, query)].  The entries of the result are objects; the empty
    query goes through [get_obj] and so can yield [None] entries. *)
Definition search (query : Query) : M Sys (list (option Obj)) :=
  w <- get_this ;;
  let st := object_store w in
  let search_terms (terms : list Key) : M Sys (list (option Obj)) :=
    match search_loop st terms None with
    | Raise e => raise e
    | Ok (Some results) => ret (Some <$> objects_of st results)
    | Ok None => ret []
    end in
  match query with
  | QTerm k => search_terms [k]
  | QList [] => get_objs (elements (tagged_object_ids st))
  | QList terms => search_terms terms
  end.

(** *** Sending *)

(** [send_msg]: the serializer is outside the runtime, so the message is
    handed over as it is; the hand-over is noted on [wire]. *)
Definition send_msg (message : Message) (location : IdOrWorker) : M Sys PyVal :=
  fun s =>
    let '(response, n) := _send_msg message location (net s) in
    (response, mkSys (this s) (ID_PROVIDER s) n (wire s ++ [(message, location)])).

Definition send_obj (obj : Obj) (location : IdOrWorker) : M Sys PyVal :=
  send_msg (ObjectMessage obj) location.

Definition request_obj (obj_id : Key) (location : IdOrWorker) (user : User) (reason : string)
  : M Sys PyVal :=
  send_msg (ObjectRequestMessage obj_id user reason) location.

(** [send(self, obj, workers, ptr_id, garbage_collect_data, requires_grad,
    create_pointer)].  [create_pointer] of the object's class is outside the
    sources; it builds the pointer from the arguments it is given. *)
Definition send (obj : Obj) (workers : Workers) (ptr_id : option Key)
    (requires_grad create_pointer : bool) : M Sys Value :=
  let workers := match workers with OneWorker w => [w] | WorkerList l => l end in
  match workers with
  | [] => raise AssertionError
  | [worker] =>
      w <- get_this ;;
      worker <- get_worker (as_arg worker) false ;;
      let sent := if requires_grad
                  then with_origin (Some (worker_id w)) (Some (obj_id obj)) obj
                  else obj in
      send_obj sent worker ;;;
      let obj := if requires_grad then with_origin None None obj else obj in
      if negb create_pointer then ret VNone
      else if obj_pointable obj then
        ptr_id <- match ptr_id with Some k => ret k | None => pop end ;;
        ret (VPointer (mkPointer worker (obj_id obj) (self w) ptr_id))
      else ret (VObj obj)
  | _ => raise NotImplementedError
  end.

(** *** Executing a computation action *)

(** The tensor library behind the worker: which operations are in place,
    which free functions may be called, and what a call yields. *)
Variable is_inplace_method : string -> bool.
Variable command_guard : string -> M Sys unit.
Variable call_method : Callee -> string -> list Value -> Kwargs -> M Sys PyVal.
Variable call_function : string -> list Value -> Kwargs -> M Sys PyVal.

(** [ids.pop()] on either kind of id source.  A list that has run out is
    the mismatch between the response and the ids it was to be bound to. *)
Definition pop_id (ids : IdSource) : M Sys (Key * IdSource) :=
  match ids with
  | ListIds [] => raise (ResponseSignatureError [])
  | ListIds (k :: rest) => ret (k, ListIds rest)
  | ProviderIds => k <- pop ;; ret (k, ProviderIds)
  end.

(** Modelled from the spec: [hook_args.register_response] is not part of the
    sources.  It binds the values of a response to ids: each tensor of the
    response takes the next id of the source and is registered with the
    worker under it; the other values are left as they are.  When the ids do
    not suffice for the values that resulted, the binding is given up with
    [ResponseSignatureError]. *)
Fixpoint register_values (values : list Value) (ids : IdSource) : M Sys (list Value) :=
  match values with
  | [] => ret []
  | VObj tensor :: rest =>
      popped <- pop_id ids ;;
      let tensor := with_id popped.1 tensor in
      register_obj tensor None ;;;
      rest <- register_values rest popped.2 ;;
      ret (VObj tensor :: rest)
  | v :: rest =>
      rest <- register_values rest ids ;;
      ret (v :: rest)
  end.

Definition register_response (op_name : string) (response : PyVal) (ids : IdSource)
  : M Sys PyVal :=
  match response with
  | One v =>
      bound <- register_values [v] ids ;;
      ret (One (List.hd v bound))
  | Many l =>
      bound <- register_values l ids ;;
      ret (Many bound)
  end.


Definition tensors_in (values : list Value) : list Obj :=
  omap (fun v => match v with VObj o => Some o | _ => None end) values.


(** [isinstance(response, (int, float, bool, str))] *)
Definition is_scalar (response : PyVal) : bool :=
  match response with
  | One (VInt _) | One (VFloat _) | One (VBool _) | One (VStr _) => true
  | _ => false
  end.

(** How far [execute_computation_action] gets before it looks at the
    response: it has returned [None] already, or it holds a response. *)
Inductive Obtained :=
| Returned
| Response (response : PyVal).

(** What [_self] stands for: an integer is the id of a local object (absent
    or private: [None], and the command returns), ["self"] is the worker,
    another string is searched for and must be found exactly once, anything
    else is the target itself. *)
Definition resolve_target (_self : Value) : M Sys (option Callee) :=
  match _self with
  | VInt z =>
      obj <- get_obj (KInt z) ;;
      ret (OnObject <$> obj)
  | VStr text =>
      if String.eqb text "self" then ret (Some OnWorker)
      else
        res <- search (QTerm (KStr text)) ;;
        match res with
        | [Some found] => ret (Some (OnObject found))
        | [None] => ret (Some (OnValue VNone))
        | _ => raise AssertionError
        end
  | v => ret (Some (OnValue v))
  end.

(** The first half of [execute_computation_action]: resolve the target and
    invoke the operation. *)
Definition obtain_response (action : ComputationAction) : M Sys Obtained :=
  let op_name := name action in
  let args_ := args action in
  let kwargs_ := kwargs action in
  match target action with
  | Some _self =>
      (* Handle methods *)
      resolved <- resolve_target _self ;;
      match resolved with
      | None => ret Returned
      | Some _self =>
          if is_inplace_method op_name
          then call_method _self op_name args_ kwargs_ ;;; ret Returned
          else
            response <- except_TypeError
                          (call_method _self op_name args_ kwargs_)
                          (new_args <- of_result (decode_args args_) ;;
                           call_method _self op_name new_args kwargs_) ;;
            ret (Response response)
      end
  | None =>
      (* Handle functions *)
      command_guard op_name ;;;
      response <- call_function op_name args_ kwargs_ ;;
      ret (Response response)
  end.

(** The second half: register the response and create pointers for its
    tensor elements, renegotiating the ids when the binding fails. *)
Definition bind_response (op_name : string) (response : PyVal) (return_ids : list Key)
    (return_value : bool) : M Sys PyVal :=
  except_ResponseSignatureError
    (response <- register_response op_name response (ListIds return_ids) ;;
     if return_value || is_scalar response then ret response else ret PyNone)
    (fun _ =>
       set_next_ids return_ids ;;;
       start_recording_ids ;;;
       register_response op_name response ProviderIds ;;;
       new_ids <- get_recorded_ids ;;
       raise (ResponseSignatureError new_ids)).

Definition execute_computation_action (action : ComputationAction) : M Sys PyVal :=
  obtained <- obtain_response action ;;
  match obtained with
  | Returned => ret PyNone
  | Response (One VNone) => ret PyNone
  | Response response =>
      bind_response (name action) response (return_ids action) (return_value action)
  end.

(** *** Sending a command *)

Fixpoint make_pointers (recipient : IdOrWorker) (return_ids : list Key) : M Sys (list Value) :=
  match return_ids with
  | [] => ret []
  | return_id :: rest =>
      w <- get_this ;;
      new_id <- pop ;;
      let response := VPointer (mkPointer recipient return_id (self w) new_id) in
      responses <- make_pointers recipient rest ;;
      ret (response :: responses)
  end.

Definition is_none_or_bytes (ret_val : PyVal) : bool :=
  match ret_val with
  | One VNone | One (VBytes _) => true
  | _ => false
  end.

(** [responses[0]] when there is a single return id, [responses] otherwise. *)
Definition unwrap_single (responses : list Value) : PyVal :=
  match responses with
  | [response] => One response
  | _ => Many responses
  end.

(** [send_command(self, recipient, cmd_name, target, args_, kwargs_,
    return_ids, return_value)] *)
Definition send_command (recipient : IdOrWorker) (cmd_name : string) (target : option Value)
    (args_ : list Value) (kwargs_ : Kwargs) (return_ids : option (list Key))
    (return_value : bool) : M Sys PyVal :=
  return_ids <- match return_ids with
                | None => k <- pop ;; ret [k]
                | Some ids => ret ids
                end ;;
  answer <- except_ResponseSignatureError
              (let message := TensorCommandMessage (Computation
                 (mkComputation cmd_name target args_ kwargs_ return_ids return_value)) in
               ret_val <- send_msg message recipient ;;
               ret (ret_val, return_ids))
              (fun ids_generated => ret (PyNone, ids_generated)) ;;
  let '(ret_val, return_ids) := answer in
  if is_none_or_bytes ret_val then
    responses <- make_pointers recipient return_ids ;;
    ret (unwrap_single responses)
  else ret ret_val.

(** *** The message router *)

Definition handle_delete_object_msg (object_id : Key) : M Sys PyVal :=
  modify_this (fun w => with_store (rm_obj (object_store w) object_id) w) ;;;
  ret PyNone.

Definition handle_force_delete_object_msg (object_id : Key) : M Sys PyVal :=
  modify_this (fun w => with_store (force_rm_obj (object_store w) object_id) w) ;;;
  ret PyNone.

(** The handlers that hand their work to the tensor library, the plan
    machinery or the pointer classes. *)
Variable foreign_handler : Handler -> Message -> M Sys PyVal.

Definition execute_tensor_command (action : Action) : M Sys PyVal :=
  match action with
  | Computation a => execute_computation_action a
  | Communication _ =>
      foreign_handler execute_tensor_command_h (TensorCommandMessage action)
  end.

Definition of_obj (obj : option Obj) : PyVal :=
  match obj with
  | Some o => One (VObj o)
  | None => PyNone
  end.

(** A handler applied to a message.  A message without the attributes the
    handler reads is an [AttributeError]. *)
Definition run_handler (h : Handler) (msg : Message) : M Sys PyVal :=
  match h, msg with
  | execute_tensor_command_h, TensorCommandMessage action => execute_tensor_command action
  | respond_to_obj_req_h, ObjectRequestMessage object_id user reason =>
      obj <- respond_to_obj_req object_id user reason ;; ret (of_obj obj)
  | handle_delete_object_msg_h, ForceObjectDeleteMessage object_id =>
      handle_delete_object_msg object_id
  | handle_force_delete_object_msg_h, ForceObjectDeleteMessage object_id =>
      handle_force_delete_object_msg object_id
  | is_object_none_h, IsNoneMessage object_id =>
      b <- is_object_none object_id ;; ret (One (VBool b))
  | execute_plan_command_h, PlanCommandMessage _ _
  | execute_worker_command_h, WorkerCommandMessage _ _ _ _
  | handle_object_msg_h, ObjectMessage _
  | handle_get_shape_message_h, GetShapeMessage _
  | respond_to_search_h, SearchMessage _ => foreign_handler h msg
  | _, _ => raise AttributeError
  end.

(** The entries of the dict literal that [__init__] assigns to
    [self._message_router], in the order they are written. *)
Definition _message_router_entries : list (MsgType * Handler) :=
  [ (TensorCommandMessageT, execute_tensor_command_h);
    (PlanCommandMessageT, execute_plan_command_h);
    (WorkerCommandMessageT, execute_worker_command_h);
    (ObjectMessageT, handle_object_msg_h);
    (ObjectRequestMessageT, respond_to_obj_req_h);
    (ForceObjectDeleteMessageT, handle_delete_object_msg_h);
    (ForceObjectDeleteMessageT, handle_force_delete_object_msg_h);
    (IsNoneMessageT, is_object_none_h);
    (GetShapeMessageT, handle_get_shape_message_h);
    (SearchMessageT, respond_to_search_h) ].

Definition _message_router : gmap MsgType Handler :=
  dict_literal _message_router_entries.

(** Step 1 of [recv_msg]: save the message when [log_msgs] is set. *)
Definition save_message (msg : Message) : M Sys unit :=
  w <- get_this ;;
  if log_msgs w
  then modify_this (fun w => with_msg_history (msg_history w ++ [msg]) w)
  else ret tt.

(** [recv_msg(self, bin_message)], on the message the bytes stand for. *)
Definition recv_msg (msg : Message) : M Sys PyVal :=
  save_message msg ;;;
  match _message_router !! type_of msg with
  | Some handler => run_handler handler msg
  | None => raise KeyError
  end.

End Runtime.

(** ** Reading a state *)

(** The garbage-collection toggle an object exposes, as [get_obj] looks for
    it: [obj.child.garbage_collect_data], when [obj] has a child and the
    child has [set_garbage_collect_data]. *)
Definition gc_toggle (obj : Obj) : option bool :=
  match obj_child obj with
  | Some c => garbage_collect_data c
  | None => None
  end.

(** The objects registered on the worker of a process. *)
Definition registered {Net} (s : @Sys Net) : gmap Key Obj :=
  _objects (object_store (this s)).

(** The objects that carry every term of a query as a tag. *)
Definition carrying_all (st : ObjectStore) (terms : list Key) : gset Key :=
  match terms with
  | [] => ∅
  | t :: ts => foldl (fun acc t => acc ∩ find_by_tag st t) (find_by_tag st t) ts
  end.





(** ** Sample data *)

Definition alice : WorkerHandle := mkHandle 1 (KStr "alice").
Definition bob : WorkerHandle := mkHandle 2 (KStr "bob").

Definition sample_obj (k : Key) (tags : list Key) (private : option bool)
    (toggle : option bool) (allow : option (User -> bool)) : Obj :=
  mkObj k (list_to_set tags) private (Some (mkChild toggle)) allow None None true 0
    (Ok true).

(** A tensor behind a wrapper with a toggle, a private one, and one that
    only its owner may fetch. *)
Definition tensor_x : Obj :=
  sample_obj (KInt 1000) [KStr "model"; KStr "v1"] None (Some true) None.

Definition secret_y : Obj :=
  sample_obj (KInt 7) [KStr "data"] (Some true) None None.

Definition guarded_z : Obj :=
  sample_obj (KInt 8) []%list None None
    (Some (fun user => bool_decide (user = Some "alice"))).

Definition fresh_provider : IdProvider := mkProvider []%list 5000 false []%list.

Definition worker_with (me : WorkerHandle) (client : bool) (objs : list Obj)
    (known : list WorkerHandle) : BaseWorker :=
  mkWorker me client false []%list
    (mkStore (list_to_map ((fun o => (obj_id o, o)) <$> objs)))
    (list_to_map ((fun h => (handle_id h, h)) <$> known)).

Definition sys_of (w : BaseWorker) : @Sys unit := mkSys w fresh_provider tt []%list.

Definition bob_sys : @Sys unit :=
  sys_of (worker_with bob false [tensor_x; secret_y; guarded_z] [bob; alice]).

(** A client worker that registered a tensor while registration was
    enabled. *)
Definition client_sys : @Sys unit :=
  (registration_enabled (register_obj tensor_x None)
     (sys_of (worker_with alice true []%list [alice]))).2.

(** A small tensor library: ["chunk3"] splits a tensor in three, ["numel"]
    counts its elements, every other method gives the tensor back. *)
Definition sample_call_method (callee : Callee) (op : string) (args_ : list Value)
    (kwargs_ : Kwargs) : M (@Sys unit) PyVal :=
  match callee with
  | OnObject o =>
      if String.eqb op "chunk3" then ret (Many [VObj o; VObj o; VObj o])
      else if String.eqb op "numel" then ret (One (VInt 4))
      else ret (One (VObj o))
  | _ => raise AttributeError
  end.

Definition sample_call_function (op : string) (args_ : list Value) (kwargs_ : Kwargs)
  : M (@Sys unit) PyVal :=
  ret (Many args_).

Definition sample_execute : ComputationAction -> M (@Sys unit) PyVal :=
  execute_computation_action (fun _ => false) (fun _ => ret tt)
    sample_call_method sample_call_function.

(** The command "chunk3 the tensor 1000" asking for two return ids. *)
Definition chunk3_action : ComputationAction :=
  mkComputation "chunk3" (Some (VInt 1000)) []%list []%list [KInt 11; KInt 12] false.

(** A transport that runs the command on [bob_sys] and brings back what
    comes of it. *)
Definition to_bob (msg : Message) (dest : IdOrWorker) (n : unit) : Result PyVal * unit :=
  match msg with
  | TensorCommandMessage (Computation a) => ((sample_execute a bob_sys).1, n)
  | _ => (Ok PyNone, n)
  end.

(** The command "numel of the tensor 1000", with one return id and no
    [return_value] flag. *)
Definition numel_action : ComputationAction :=
  mkComputation "numel" (Some (VInt 1000)) []%list []%list [KInt 11] false.

Definition alice_sys : @Sys unit :=
  mkSys (worker_with alice false []%list [alice; bob])
    (mkProvider []%list 9000 false []%list) tt []%list.

(** ** More of the worker *)

Section MoreRuntime.

Context {Net : Type}.

(** [clear_objects(self, return_self=True)] *)
Definition worker_clear_objects (return_self : bool) : M (@Sys Net) (option WorkerHandle) :=
  modify_this (fun w => with_store (clear_objects (object_store w)) w) ;;;
  w <- get_this ;;
  ret (if return_self then Some (self w) else None).

(** [objects_count(self)] *)
Definition objects_count : M (@Sys Net) nat :=
  w <- get_this ;;
  ret (size (_objects (object_store w))).

(** [l[i]] for a Python list: a negative index counts from the end; [None]
    stands for the [IndexError] of an index out of range. *)
Definition py_index {A} (l : list A) (i : Z) : option A :=
  let n := Z.of_nat (length l) in
  if (0 <=? i)%Z then l !! Z.to_nat i
  else if (- n <=? i)%Z then l !! Z.to_nat (n + i)
  else None.

(** [_get_msg(self, index)] *)
Definition _get_msg (index : Z) (w : BaseWorker) : option Message :=
  py_index (msg_history w) index.

(** *** Plan commands *)

(** The two command codes of [codes.PLAN_CMDS], and what the runtime asks of
    a stored object: whether it is a [Plan], whether it is a [Protocol], and
    its [copy()]. *)
Variable FETCH_PLAN FETCH_PROTOCOL : string.
Variable is_plan is_protocol : Obj -> bool.
Variable copy_of : Obj -> Obj.

(** [_fetch_plan_remote(self, plan_id, copy)] *)
Definition _fetch_plan_remote (plan_id : Key) (copy : bool) : M (@Sys Net) (option Obj) :=
  w <- get_this ;;
  match _objects (object_store w) !! plan_id with
  | Some _ =>
      match store_get_obj (object_store w) plan_id with
      | Raise e => raise e
      | Ok candidate =>
          if is_plan candidate
          then (if copy then ret (Some (copy_of candidate)) else ret (Some candidate))
          else ret None
      end
  | None => ret None
  end.

(** [_fetch_protocol_remote(self, protocol_id, copy)] *)
Definition _fetch_protocol_remote (protocol_id : Key) (copy : bool)
  : M (@Sys Net) (option Obj) :=
  w <- get_this ;;
  match _objects (object_store w) !! protocol_id with
  | Some _ =>
      match store_get_obj (object_store w) protocol_id with
      | Raise e => raise e
      | Ok candidate => if is_protocol candidate then ret (Some candidate) else ret None
      end
  | None => ret None
  end.

(** The methods [self._plan_command_router] can name. *)
Inductive PlanCommand :=
| fetch_plan_remote_c
| fetch_protocol_remote_c.

Definition _plan_command_router : gmap string PlanCommand :=
  dict_literal [ (FETCH_PLAN, fetch_plan_remote_c);
                 (FETCH_PROTOCOL, fetch_protocol_remote_c) ].

(** [execute_plan_command(self, msg)], for the argument tuple
    [(id, copy)] that [fetch_plan] and [fetch_protocol] send. *)
Definition execute_plan_command (command_name : string) (args_ : Key * bool)
  : M (@Sys Net) (option Obj) :=
  match _plan_command_router !! command_name with
  | None => raise (PlanCommandUnknownError command_name)
  | Some fetch_plan_remote_c => _fetch_plan_remote args_.1 args_.2
  | Some fetch_protocol_remote_c => _fetch_protocol_remote args_.1 args_.2
  end.

End MoreRuntime.

(** * Properties *)

Section RegistryFacts.

Context {Net : Type}.
Local Abbreviation Sys := (@Sys Net).

Lemma get_worker_own_id (s : Sys) (fail_hard : bool) :
  get_worker (ArgId (worker_id (this s))) fail_hard s = (Ok (AWorker (self (this s))), s).
Proof.
  unfold get_worker, _get_worker_based_on_id, bind, get_this, worker_id; simpl.
  rewrite bool_decide_eq_true_2 by reflexivity. reflexivity.
Qed.

Lemma get_worker_unknown_id (s : Sys) (k : Key) (fail_hard : bool) :
  k ≠ worker_id (this s) ->
  _known_workers (this s) !! k = None ->
  get_worker (ArgId k) fail_hard s
  = (if fail_hard then Raise WorkerNotFoundException else Ok (AnId k), s).
Proof.
  intros Hself Hreg.
  unfold get_worker, _get_worker_based_on_id, bind, get_this; simpl.
  rewrite bool_decide_eq_false_2 by exact Hself.
  rewrite Hreg; simpl.
  rewrite bool_decide_eq_true_2 by reflexivity.
  destruct fail_hard; reflexivity.
Qed.

(** C4: for an id that is neither the worker's own id nor a key of its
    registry, [get_worker] with [fail_hard=True] raises
    [WorkerNotFoundException] and with [fail_hard=False] returns the id
    itself, unresolved, without raising; for the worker's own id it returns
    the worker itself.  The worker is left as it was in all three cases. *)
Theorem get_worker_strictness (s : Sys) (k : Key) :
  k ≠ worker_id (this s) ->
  k ∉ dom (_known_workers (this s)) ->
  get_worker (ArgId k) true s = (Raise WorkerNotFoundException, s)
  ∧ get_worker (ArgId k) false s = (Ok (AnId k), s)
  ∧ ∀ fail_hard,
      get_worker (ArgId (worker_id (this s))) fail_hard s
      = (Ok (AWorker (self (this s))), s).
Proof.
  intros Hself Hreg.
  apply not_elem_of_dom in Hreg.
  split; [|split].
  - apply (get_worker_unknown_id s k true Hself Hreg).
  - apply (get_worker_unknown_id s k false Hself Hreg).
  - intros fail_hard. apply get_worker_own_id.
Qed.

End RegistryFacts.

Section StoreFacts.

Context {Net : Type}.
Local Abbreviation Sys := (@Sys Net).

Lemma get_obj_absent (s : Sys) (k : Key) :
  registered s !! k = None ->
  get_obj k s = (Raise (ObjectNotFoundError k), s).
Proof.
  unfold registered, get_obj, bind, get_this, store_get_obj; simpl.
  intros ->. reflexivity.
Qed.

Lemma get_obj_present (s : Sys) (k : Key) (obj : Obj) :
  registered s !! k = Some obj ->
  ∃ s', get_obj k s
        = (Ok (match obj_private obj with
               | Some true => None
               | _ => Some (gc_forced_off obj)
               end), s')
        ∧ registered s' = <[k := gc_forced_off obj]> (registered s)
        ∧ is_client_worker (this s') = is_client_worker (this s).
Proof.
  unfold registered, get_obj, bind, get_this, store_get_obj; simpl.
  intros ->. simpl.
  assert (Hp : obj_private (gc_forced_off obj) = obj_private obj).
  { unfold gc_forced_off. destruct (obj_child obj) as [c|]; [|reflexivity].
    destruct (garbage_collect_data c); reflexivity. }
  rewrite Hp.
  destruct (obj_private obj) as [[|]|]; eexists; (split; [reflexivity|]);
    split; reflexivity.
Qed.

Lemma gc_toggle_forced_off (obj : Obj) :
  is_Some (gc_toggle obj) -> gc_toggle (gc_forced_off obj) = Some false.
Proof.
  unfold gc_toggle, gc_forced_off. intros [flag H].
  destruct (obj_child obj) as [c|]; [|discriminate].
  rewrite H. reflexivity.
Qed.

(** C5: [is_object_none] raises [ObjectNotFoundError] when the store has no
    entry for the id; for an entry that exists and whose object is flagged
    private, [get_obj] returns [None] and [is_object_none] returns [True].
    The probe thus tells an absent entry (an exception) from a present but
    private one (an answer). *)
Theorem is_object_none_absent_vs_private (s : Sys) (k : Key) :
  (registered s !! k = None ->
   is_object_none k s = (Raise (ObjectNotFoundError k), s))
  ∧ (∀ obj, registered s !! k = Some obj -> obj_private obj = Some true ->
       ∃ s', get_obj k s = (Ok None, s')
             ∧ is_object_none k s = (Ok true, s')
             ∧ is_Some (registered s' !! k)).
Proof.
  split.
  - intros Habs. unfold is_object_none, bind, get_this; simpl.
    unfold registered in Habs. rewrite Habs. reflexivity.
  - intros obj Hobj Hpriv.
    destruct (get_obj_present s k obj Hobj) as (s' & Hget & Hreg & _).
    rewrite Hpriv in Hget.
    exists s'. split; [exact Hget|]. split.
    + unfold is_object_none, bind, get_this; simpl.
      unfold registered in Hobj. rewrite Hobj.
      rewrite Hget. reflexivity.
    + rewrite Hreg, lookup_insert_eq. eauto.
Qed.

(** C7: after [get_obj] on a stored object that exposes a
    garbage-collection toggle, the toggle of that object reports "do not
    collect": the stored object has [garbage_collect_data] forced to [False],
    and so has the retrieved value whenever one is returned. *)
Theorem get_obj_forces_gc_off (s : Sys) (k : Key) (obj : Obj) :
  registered s !! k = Some obj ->
  is_Some (gc_toggle obj) ->
  ∃ r s', get_obj k s = (Ok r, s')
          ∧ (gc_toggle <$> registered s' !! k) = Some (Some false)
          ∧ (∀ got, r = Some got -> gc_toggle got = Some false).
Proof.
  intros Hobj Htoggle.
  destruct (get_obj_present s k obj Hobj) as (s' & Hget & Hreg & _).
  eexists _, s'. split; [exact Hget|]. split.
  - rewrite Hreg, lookup_insert_eq. simpl.
    rewrite gc_toggle_forced_off by exact Htoggle. reflexivity.
  - intros got Hgot.
    destruct (obj_private obj) as [[|]|]; inversion Hgot; subst;
      apply gc_toggle_forced_off; exact Htoggle.
Qed.

End StoreFacts.

Lemma get_worker_strictness_witness :
  get_worker (ArgId (KStr "carol")) true bob_sys = (Raise WorkerNotFoundException, bob_sys)
  ∧ get_worker (ArgId (KStr "carol")) false bob_sys = (Ok (AnId (KStr "carol")), bob_sys)
  ∧ ∀ fail_hard,
      get_worker (ArgId (KStr "bob")) fail_hard bob_sys = (Ok (AWorker bob), bob_sys).
Proof.
  apply (get_worker_strictness bob_sys (KStr "carol")).
  - discriminate.
  - apply not_elem_of_dom. vm_compute. reflexivity.
Defined.

Lemma is_object_none_absent_vs_private_witness :
  is_object_none (KInt 99) bob_sys = (Raise (ObjectNotFoundError (KInt 99)), bob_sys)
  ∧ ∃ s', get_obj (KInt 7) bob_sys = (Ok None, s')
          ∧ is_object_none (KInt 7) bob_sys = (Ok true, s')
          ∧ is_Some (registered s' !! KInt 7).
Proof.
  split.
  - apply (proj1 (is_object_none_absent_vs_private bob_sys (KInt 99))).
    vm_compute. reflexivity.
  - apply (proj2 (is_object_none_absent_vs_private bob_sys (KInt 7)) secret_y).
    + vm_compute. reflexivity.
    + reflexivity.
Defined.

Lemma get_obj_forces_gc_off_witness :
  ∃ r s', get_obj (KInt 1000) bob_sys = (Ok r, s')
          ∧ (gc_toggle <$> registered s' !! KInt 1000) = Some (Some false)
          ∧ (∀ got, r = Some got -> gc_toggle got = Some false).
Proof.
  apply (get_obj_forces_gc_off bob_sys (KInt 1000) tensor_x).
  - vm_compute. reflexivity.
  - exists true. reflexivity.
Defined.

Section RouterFacts.

Context {Net : Type}.
Local Abbreviation Sys := (@Sys Net).
Variable is_inplace_method : string -> bool.
Variable command_guard : string -> M Sys unit.
Variable call_method : Callee -> string -> list Value -> Kwargs -> M Sys PyVal.
Variable call_function : string -> list Value -> Kwargs -> M Sys PyVal.
Variable foreign_handler : Handler -> Message -> M Sys PyVal.

Local Abbreviation recv_msg' :=
  (recv_msg is_inplace_method command_guard call_method call_function foreign_handler).

(** C10: the router's dict literal names [ForceObjectDeleteMessage] twice,
    first with [handle_delete_object_msg] and then with
    [handle_force_delete_object_msg]; the later entry is the one the router
    keeps.  Every [ForceObjectDeleteMessage] that [recv_msg] routes is
    therefore handled by [handle_force_delete_object_msg], which calls
    [force_rm_obj], and no message type at all is routed to
    [handle_delete_object_msg]. *)
Theorem force_delete_routing :
  (∃ before between after : list (MsgType * Handler),
      _message_router_entries
      = (before ++ (ForceObjectDeleteMessageT, handle_delete_object_msg_h)
           :: between ++ (ForceObjectDeleteMessageT, handle_force_delete_object_msg_h)
           :: after)%list)
  ∧ _message_router !! ForceObjectDeleteMessageT = Some handle_force_delete_object_msg_h
  ∧ (∀ t, _message_router !! t ≠ Some handle_delete_object_msg_h)
  ∧ (∀ (s : Sys) object_id,
        recv_msg' (ForceObjectDeleteMessage object_id) s
        = (save_message (ForceObjectDeleteMessage object_id) ;;;
           handle_force_delete_object_msg object_id) s)
  ∧ (∀ (s : Sys) object_id,
        ∃ s', recv_msg' (ForceObjectDeleteMessage object_id) s = (Ok PyNone, s')
              ∧ object_store (this s') = force_rm_obj (object_store (this s)) object_id).
Proof.
  assert (Hroute : _message_router !! ForceObjectDeleteMessageT
                   = Some handle_force_delete_object_msg_h) by (vm_compute; reflexivity).
  split; [|split; [|split; [|split]]].
  - exists (firstn 5 _message_router_entries), []%list, (skipn 7 _message_router_entries).
    reflexivity.
  - exact Hroute.
  - intros t. destruct t; vm_compute; discriminate.
  - intros s object_id. unfold recv_msg, bind. cbn [type_of].
    destruct (save_message _ s) as [[u|e] s']; [|reflexivity].
    rewrite Hroute. reflexivity.
  - intros s object_id. unfold recv_msg, bind. cbn [type_of].
    unfold save_message, bind, get_this.
    destruct (log_msgs (this s)); simpl; rewrite Hroute; simpl;
      eexists; split; reflexivity.
Qed.

End RouterFacts.

Section SendFacts.

Context {Net : Type}.
Local Abbreviation Sys := (@Sys Net).
Variable _send_msg : Message -> IdOrWorker -> Net -> Result PyVal * Net.

Local Abbreviation send' := (send _send_msg).

Lemma get_worker_soft (s : Sys) (worker : IdOrWorker) :
  ∃ dest s', get_worker (as_arg worker) false s = (Ok dest, s')
             ∧ wire s' = wire s ∧ net s' = net s ∧ self (this s') = self (this s).
Proof.
  destruct worker as [k|worker]; simpl.
  - unfold _get_worker_based_on_id, bind, get_this; simpl.
    repeat case_bool_decide; eexists _, _; (split; [reflexivity|]); auto.
  - unfold _get_worker, bind, get_this; simpl.
    case_bool_decide; simpl; eexists _, _; (split; [reflexivity|]); auto.
Qed.

Lemma send_one_destination (s : Sys) (obj : Obj) (worker : IdOrWorker)
    (ptr_id : option Key) (requires_grad create_pointer : bool) :
  ∃ dest sent,
    wire (send' obj (WorkerList [worker]) ptr_id requires_grad create_pointer s).2
    = (wire s ++ [(ObjectMessage sent, dest)])%list.
Proof.
  destruct (get_worker_soft s worker) as (dest & s1 & Hget & Hwire & _ & _).
  exists dest.
  exists (if requires_grad
          then with_origin (Some (worker_id (this s))) (Some (obj_id obj)) obj
          else obj).
  unfold send, bind, get_this; simpl.
  rewrite Hget.
  unfold send_obj, send_msg.
  destruct (_send_msg _ dest (net s1)) as [[r|e] n]; simpl; [|congruence].
  destruct create_pointer; simpl; [|congruence].
  destruct (obj_pointable _); simpl; [|congruence].
  destruct ptr_id; simpl; [congruence|].
  unfold pop; simpl. destruct (provider_pop _); simpl. congruence.
Qed.

(** C6: a call of [send] with more than one destination worker is rejected
    with [NotImplementedError] before anything is transmitted: the process
    is left exactly as it was, so nothing was handed to the transport.  A
    call with exactly one destination, given alone or as a list of one, hands
    the object to the transport, once. *)
Theorem send_single_destination_only (s : Sys) (obj : Obj) (ptr_id : option Key)
    (requires_grad create_pointer : bool) :
  (∀ workers : list IdOrWorker,
      (1 < length workers)%nat ->
      send' obj (WorkerList workers) ptr_id requires_grad create_pointer s
      = (Raise NotImplementedError, s))
  ∧ (∀ worker : IdOrWorker,
      send' obj (OneWorker worker) ptr_id requires_grad create_pointer s
      = send' obj (WorkerList [worker]) ptr_id requires_grad create_pointer s
      ∧ ∃ dest sent,
          wire (send' obj (OneWorker worker) ptr_id requires_grad create_pointer s).2
          = (wire s ++ [(ObjectMessage sent, dest)])%list).
Proof.
  split.
  - intros workers Hlen.
    destruct workers as [|w1 [|w2 rest]]; simpl in Hlen; try lia.
    reflexivity.
  - intros worker. split; [reflexivity|].
    apply send_one_destination.
Qed.

End SendFacts.

Lemma send_single_destination_only_witness :
  send (fun _ _ n => (Ok PyNone, n)) tensor_x (WorkerList [AWorker alice; AnId (KStr "carol")])
    None false true bob_sys
  = (Raise NotImplementedError, bob_sys).
Proof.
  apply (proj1 (send_single_destination_only (fun _ _ n => (Ok PyNone, n))
                  bob_sys tensor_x None false true)).
  simpl. lia.
Defined.

Section SearchFacts.

Context {Net : Type}.
Local Abbreviation Sys := (@Sys Net).

Lemma elem_of_find_by_tag (st : ObjectStore) (t k : Key) :
  k ∈ find_by_tag st t ↔ ∃ o, _objects st !! k = Some o ∧ t ∈ obj_tags o.
Proof.
  unfold find_by_tag. rewrite elem_of_dom. unfold is_Some.
  split.
  - intros [o Ho]. apply map_lookup_filter_Some in Ho as [Ho Ht].
    exists o. split; [exact Ho|]. simpl in Ht. unfold has_tag in Ht.
    apply bool_decide_eq_true in Ht. exact Ht.
  - intros [o [Ho Ht]]. exists o. apply map_lookup_filter_Some.
    split; [exact Ho|]. simpl. unfold has_tag. apply bool_decide_eq_true. exact Ht.
Qed.

Lemma foldl_inter_subseteq (f : Key -> gset Key) (ts : list Key) (acc : gset Key) :
  foldl (fun acc t => acc ∩ f t) acc ts ⊆ acc.
Proof.
  revert acc. induction ts as [|t ts IH]; intros acc; simpl.
  - reflexivity.
  - etransitivity; [apply IH|]. set_solver.
Qed.

Lemma id_hit_not_found (st : ObjectStore) (t : Key) :
  find_by_id st t = None -> id_hit st t = Ok false.
Proof. unfold id_hit. intros ->. reflexivity. Qed.

Lemma search_loop_tags (st : ObjectStore) (ts : list Key) (acc : gset Key) :
  Forall (fun t => find_by_id st t = None) ts ->
  foldl (fun acc t => acc ∩ find_by_tag st t) acc ts ≠ ∅ ->
  search_loop st ts (Some acc)
  = Ok (Some (foldl (fun acc t => acc ∩ find_by_tag st t) acc ts)).
Proof.
  revert acc. induction ts as [|t ts IH]; intros acc Hids Hne; simpl.
  - reflexivity.
  - inversion Hids as [|? ? Ht Hts]; subst. rewrite (id_hit_not_found _ _ Ht).
    assert (Hacc : acc ≠ ∅).
    { intros ->. apply Hne. simpl.
      pose proof (foldl_inter_subseteq (find_by_tag st) ts (∅ ∩ find_by_tag st t)).
      set_solver. }
    simpl. rewrite bool_decide_eq_false_2 by exact Hacc. simpl.
    apply IH; assumption.
Qed.


Lemma objects_of_singleton (st : ObjectStore) (k : Key) (o : Obj) :
  _objects st !! k = Some o -> objects_of st {[ k ]} = [o].
Proof.
  intros Hk. unfold objects_of. rewrite elements_singleton. simpl.
  rewrite Hk. reflexivity.
Qed.

(** A query without ids that some object satisfies in full is answered with
    the objects carrying all its terms. *)
Lemma search_by_tags (s : Sys) (terms : list Key) :
  Forall (fun t => find_by_id (object_store (this s)) t = None) terms ->
  carrying_all (object_store (this s)) terms ≠ ∅ ->
  search (QList terms) s
  = (Ok (Some <$> objects_of (object_store (this s))
                    (carrying_all (object_store (this s)) terms)), s).
Proof.
  intros Hids Hne.
  destruct terms as [|t ts]; [exfalso; apply Hne; reflexivity|].
  unfold search, bind, get_this; simpl.
  inversion Hids as [|? ? Ht Hts]; subst. rewrite (id_hit_not_found _ _ Ht). simpl.
  simpl in Hne. rewrite (search_loop_tags _ ts _ Hts Hne). reflexivity.
Qed.

(** C2: on a store that holds exactly three objects, tagged [{t1}], [{t2}]
    and [{t1, t2}], with no query term equal to an object's id,
    [search([t1, t2])] returns exactly the one object tagged with both, and
    leaves the worker as it was. *)
Theorem search_and_semantics (s : Sys) (i1 i2 i3 t1 t2 : Key) (o1 o2 o3 : Obj) :
  registered s = <[i1 := o1]> (<[i2 := o2]> (<[i3 := o3]> ∅)) ->
  i1 ≠ i2 -> i1 ≠ i3 -> i2 ≠ i3 ->
  obj_tags o1 = {[ t1 ]} -> obj_tags o2 = {[ t2 ]} -> obj_tags o3 = {[ t1; t2 ]} ->
  t1 ≠ t2 ->
  t1 ∉ [i1; i2; i3] -> t2 ∉ [i1; i2; i3] ->
  search (QList [t1; t2]) s = (Ok [Some o3], s).
Proof.
  intros Hreg H12 H13 H23 Ho1 Ho2 Ho3 Ht Ht1 Ht2.
  unfold registered in Hreg.
  assert (Hlook : ∀ k, _objects (object_store (this s)) !! k
                       = if decide (k = i1) then Some o1
                         else if decide (k = i2) then Some o2
                         else if decide (k = i3) then Some o3 else None).
  { intros k. rewrite Hreg.
    repeat (case_decide; [subst; simplify_map_eq; reflexivity|]).
    simplify_map_eq. reflexivity. }
  assert (Hboth : carrying_all (object_store (this s)) [t1; t2] = {[ i3 ]}).
  { simpl. apply set_eq. intros k.
    rewrite elem_of_intersection, !elem_of_find_by_tag, elem_of_singleton.
    rewrite Hlook.
    split.
    - intros [[a [Ha Hta]] [b [Hb Htb]]].
      repeat case_decide; simplify_eq; try reflexivity; set_solver.
    - intros ->.
      rewrite decide_False by congruence. rewrite decide_False by congruence.
      rewrite decide_True by reflexivity.
      split; exists o3; (split; [reflexivity|]); set_solver. }
  rewrite search_by_tags.
  - rewrite Hboth. erewrite objects_of_singleton; [reflexivity|].
    rewrite Hlook. repeat case_decide; congruence.
  - unfold find_by_id.
    repeat constructor; rewrite Hlook; repeat case_decide; subst;
      try reflexivity; exfalso; set_solver.
  - rewrite Hboth. set_solver.
Qed.


End SearchFacts.

Lemma search_and_semantics_witness :
  search (QList [KStr "alpha"; KStr "beta"])
    (sys_of (worker_with bob false
               [ sample_obj (KInt 1) [KStr "alpha"] None None None;
                 sample_obj (KInt 2) [KStr "beta"] None None None;
                 sample_obj (KInt 3) [KStr "alpha"; KStr "beta"] None None None ]
               [bob]))
  = (Ok [Some (sample_obj (KInt 3) [KStr "alpha"; KStr "beta"] None None None)],
     sys_of (worker_with bob false
               [ sample_obj (KInt 1) [KStr "alpha"] None None None;
                 sample_obj (KInt 2) [KStr "beta"] None None None;
                 sample_obj (KInt 3) [KStr "alpha"; KStr "beta"] None None None ]
               [bob])).
Proof.
  apply (search_and_semantics _ (KInt 1) (KInt 2) (KInt 3) (KStr "alpha") (KStr "beta")
           (sample_obj (KInt 1) [KStr "alpha"] None None None)
           (sample_obj (KInt 2) [KStr "beta"] None None None)).
  - reflexivity.
  - discriminate.
  - discriminate.
  - discriminate.
  - vm_compute. reflexivity.
  - vm_compute. reflexivity.
  - vm_compute. reflexivity.
  - discriminate.
  - intros H. repeat (apply elem_of_cons in H as [H|H]; [discriminate|]).
    apply elem_of_nil in H. exact H.
  - intros H. repeat (apply elem_of_cons in H as [H|H]; [discriminate|]).
    apply elem_of_nil in H. exact H.
Defined.



(** A stored object whose truth value is false (a tensor holding a single
    zero, say) is not found by its id. *)
Example search_id_of_falsy_object :
  search (QTerm (KInt 9))
    (sys_of (worker_with bob false
               [mkObj (KInt 9) ∅ None None None None None true 0 (Ok false)] [bob]))
  = (Ok [],
     sys_of (worker_with bob false
               [mkObj (KInt 9) ∅ None None None None None true 0 (Ok false)] [bob])).
Proof. vm_compute. reflexivity. Qed.

Section RequestFacts.

Context {Net : Type}.
Local Abbreviation Sys := (@Sys Net).

Lemma gc_forced_off_id (obj : Obj) : obj_id (gc_forced_off obj) = obj_id obj.
Proof.
  unfold gc_forced_off. destruct (obj_child obj) as [c|]; [|reflexivity].
  destruct (garbage_collect_data c); reflexivity.
Qed.

Lemma gc_forced_off_allow (obj : Obj) : obj_allow (gc_forced_off obj) = obj_allow obj.
Proof.
  unfold gc_forced_off. destruct (obj_child obj) as [c|]; [|reflexivity].
  destruct (garbage_collect_data c); reflexivity.
Qed.

Lemma de_register_obj_effect (s : Sys) (obj : Obj) :
  ∃ s', de_register_obj (Some obj) s = (Ok tt, s')
        ∧ registered s'
          = if is_client_worker (this s) then registered s
            else delete (obj_id obj) (registered s).
Proof.
  unfold de_register_obj, bind, get_this, registered; simpl.
  destruct (is_client_worker (this s)); simpl; eexists; split; reflexivity.
Qed.

(** C9, as the code has it: for a stored object that is not flagged private,
    [respond_to_obj_req] raises [GetNotPermittedError] when the object has
    [allow] and [allow(user)] is false, and the object stays registered;
    otherwise it returns the object, and deregisters it unless the worker is
    a client worker: after a permitted request the object is no longer
    registered on a worker that is not a client worker, and is still
    registered on one that is. *)
Theorem respond_to_obj_req_permission (s : Sys) (k : Key) (obj : Obj) (user : User)
    (reason : string) :
  registered s !! k = Some obj ->
  obj_id obj = k ->
  obj_private obj ≠ Some true ->
  (∀ allow, obj_allow obj = Some allow -> allow user = false ->
     ∃ s', respond_to_obj_req k user reason s = (Raise GetNotPermittedError, s')
           ∧ is_Some (registered s' !! k))
  ∧ (obj_allow obj = None ∨ (∃ allow, obj_allow obj = Some allow ∧ allow user = true) ->
     ∃ s', respond_to_obj_req k user reason s = (Ok (Some (gc_forced_off obj)), s')
           ∧ (is_client_worker (this s) = false -> registered s' !! k = None)
           ∧ (is_client_worker (this s) = true -> is_Some (registered s' !! k))).
Proof.
  intros Hobj Hid Hpriv.
  destruct (get_obj_present s k obj Hobj) as (s1 & Hget & Hreg & Hclient).
  assert (Hgot : get_obj k s = (Ok (Some (gc_forced_off obj)), s1)).
  { rewrite Hget. destruct (obj_private obj) as [[|]|]; congruence. }
  clear Hget. split.
  - intros allow Hallow Hdeny. exists s1. split.
    + unfold respond_to_obj_req, bind. rewrite Hgot.
      rewrite gc_forced_off_allow, Hallow, Hdeny. reflexivity.
    + rewrite Hreg, lookup_insert_eq. eauto.
  - intros Hpermit.
    destruct (de_register_obj_effect s1 (gc_forced_off obj)) as (s2 & Hde & Hreg2).
    exists s2. split; [|split].
    + unfold respond_to_obj_req, bind. rewrite Hgot.
      rewrite gc_forced_off_allow.
      destruct Hpermit as [Hnone | (allow & Hallow & Hok)].
      * rewrite Hnone. simpl. rewrite Hde. reflexivity.
      * rewrite Hallow, Hok. simpl. rewrite Hde. reflexivity.
    + intros Hc. rewrite Hreg2, Hclient, Hc.
      rewrite gc_forced_off_id, Hid. apply lookup_delete_eq.
    + intros Hc. rewrite Hreg2, Hclient, Hc, Hreg, lookup_insert_eq. eauto.
Qed.

End RequestFacts.

(** A client worker answers a permitted request for an object it holds, and
    still holds the object afterwards. *)
Lemma respond_to_obj_req_client_keeps_object :
  is_client_worker (this client_sys) = true
  ∧ registered client_sys !! KInt 1000 = Some tensor_x
  ∧ obj_allow tensor_x = None
  ∧ ∃ s', respond_to_obj_req (KInt 1000) None "" client_sys
          = (Ok (Some (gc_forced_off tensor_x)), s')
          ∧ registered s' !! KInt 1000 = Some (gc_forced_off tensor_x).
Proof.
  split; [reflexivity|]. split; [vm_compute; reflexivity|]. split; [reflexivity|].
  eexists. split; vm_compute; reflexivity.
Qed.

Lemma respond_to_obj_req_permission_witness :
  (∃ s', respond_to_obj_req (KInt 8) (Some "mallory") "" bob_sys
         = (Raise GetNotPermittedError, s')
         ∧ is_Some (registered s' !! KInt 8))
  ∧ (∃ s', respond_to_obj_req (KInt 1000) (Some "mallory") "" bob_sys
           = (Ok (Some (gc_forced_off tensor_x)), s')
           ∧ (is_client_worker (this bob_sys) = false -> registered s' !! KInt 1000 = None)
           ∧ (is_client_worker (this bob_sys) = true -> is_Some (registered s' !! KInt 1000))).
Proof.
  split.
  - apply (proj1 (respond_to_obj_req_permission bob_sys (KInt 8) guarded_z
                    (Some "mallory") "" ltac:(vm_compute; reflexivity) eq_refl
                    ltac:(discriminate))
             (fun user => bool_decide (user = Some "alice"))).
    + reflexivity.
    + vm_compute. reflexivity.
  - apply (proj2 (respond_to_obj_req_permission bob_sys (KInt 1000) tensor_x
                    (Some "mallory") "" ltac:(vm_compute; reflexivity) eq_refl
                    ltac:(discriminate))).
    left. reflexivity.
Defined.

Section CommandFacts.

Context {Net : Type}.
Local Abbreviation Sys := (@Sys Net).
Variable _send_msg : Message -> IdOrWorker -> Net -> Result PyVal * Net.
Variable is_inplace_method : string -> bool.
Variable command_guard : string -> M Sys unit.
Variable call_method : Callee -> string -> list Value -> Kwargs -> M Sys PyVal.
Variable call_function : string -> list Value -> Kwargs -> M Sys PyVal.

Local Abbreviation obtain_response' :=
  (obtain_response is_inplace_method command_guard call_method call_function).
Local Abbreviation execute_computation_action' :=
  (execute_computation_action is_inplace_method command_guard call_method call_function).
Local Abbreviation send_command' := (send_command _send_msg).

(** Binding leaves every value that is no tensor as it is, and a tensor a
    tensor. *)
Lemma register_values_shape (values : list Value) :
  ∀ (ids : IdSource) (s s' : Sys) (bound : list Value),
    register_values values ids s = (Ok bound, s') ->
    Forall2 (fun v b => match v with VObj _ => ∃ o', b = VObj o' | _ => b = v end)
      values bound.
Proof.
  induction values as [|v rest IH]; intros ids s s' bound H.
  - inversion H. constructor.
  - destruct v; cbn [register_values] in H; unfold bind, ret in H;
      try (destruct (register_values rest ids s) as [[got|e] sa] eqn:E; [|discriminate];
           inversion H; subst; constructor; [reflexivity | eapply IH; exact E]).
    destruct (pop_id ids s) as [[p|e] sa]; [|discriminate].
    destruct (register_obj _ None sa) as [[u|e] sb]; [|discriminate].
    destruct (register_values rest p.2 sb) as [[got|e] sc] eqn:E; [|discriminate].
    inversion H; subst. constructor; [eexists; reflexivity | eapply IH; exact E].
Qed.

(** C8: when [execute_computation_action] holds a response that is not
    [None] and has bound it to the return ids, it returns the bound response
    itself if and only if the action's [return_value] flag is set or the
    response is an [int], [float], [bool] or [str]; in every other case it
    returns [None]. *)
Theorem computation_result_rule (s s1 s2 : Sys) (action : ComputationAction)
    (response bound : PyVal) :
  obtain_response' action s = (Ok (Response response), s1) ->
  response ≠ PyNone ->
  register_response (name action) response (ListIds (return_ids action)) s1 = (Ok bound, s2) ->
  execute_computation_action' action s
  = (Ok (if return_value action || is_scalar response then bound else PyNone), s2)
  ∧ is_scalar bound = is_scalar response
  ∧ bound ≠ PyNone
  ∧ (execute_computation_action' action s = (Ok bound, s2)
     ↔ return_value action = true ∨ is_scalar response = true).
Proof.
  intros Hobt Hnone Hreg.
  assert (Hshape : is_scalar bound = is_scalar response ∧ bound ≠ PyNone).
  { destruct response as [v|l]; unfold register_response, bind in Hreg.
    - destruct (register_values [v] _ s1) as [[b|e] sa] eqn:E; [|discriminate].
      inversion Hreg; subst.
      apply register_values_shape in E.
      inversion E as [|? b0 ? bs Hv Hrest]; subst. inversion Hrest; subst. simpl.
      destruct v; try (subst b0; split; [reflexivity|assumption]).
      destruct Hv as [o' ->]. split; [reflexivity|discriminate].
    - destruct (register_values l _ s1) as [[b|e] sa]; [|discriminate].
      inversion Hreg; subst. split; [reflexivity|discriminate]. }
  destruct Hshape as [Hscalar Hbound].
  assert (Hexec : execute_computation_action' action s
                  = (Ok (if return_value action || is_scalar response then bound else PyNone),
                     s2)).
  { unfold execute_computation_action, bind.
    rewrite Hobt.
    assert (Hbind : bind_response (name action) response (return_ids action)
                      (return_value action) s1
                    = (Ok (if return_value action || is_scalar response
                           then bound else PyNone), s2)).
    { unfold bind_response, except_ResponseSignatureError, bind. rewrite Hreg.
      rewrite Hscalar.
      destruct (return_value action || is_scalar response); reflexivity. }
    destruct response as [v|l]; [destruct v|]; try exact Hbind.
    contradiction Hnone. reflexivity. }
  split; [exact Hexec|]. split; [exact Hscalar|]. split; [exact Hbound|].
  rewrite Hexec. split.
  - intros H. apply orb_true_iff.
    destruct (return_value action || is_scalar response); [reflexivity|].
    inversion H. contradiction Hbound. congruence.
  - intros H. apply orb_true_iff in H. rewrite H. reflexivity.
Qed.

(** *** The renegotiation of return ids *)


Lemma register_obj_effect (s : Sys) (o : Obj) :
  ∃ s', register_obj o None s = (Ok tt, s')
        ∧ ID_PROVIDER s' = ID_PROVIDER s
        ∧ is_client_worker (this s') = is_client_worker (this s)
        ∧ registered s'
          = if is_client_worker (this s) then registered s
            else <[obj_id o := o]> (registered s).
Proof.
  unfold register_obj, bind, get_this, registered; simpl.
  destruct (is_client_worker (this s)) eqn:Hc; simpl;
    eexists; repeat split; try reflexivity; simpl; rewrite ?Hc; reflexivity.
Qed.


(** Binding to a list of ids fails only for want of ids, and with
    [ResponseSignatureError]. *)
Lemma register_values_list_raise (values : list Value) :
  ∀ (ids : list Key) (s s' : Sys) (e : Exn),
    register_values values (ListIds ids) s = (Raise e, s') ->
    (length ids < length (tensors_in values))%nat
    ∧ e = ResponseSignatureError []
    ∧ is_client_worker (this s') = is_client_worker (this s).
Proof.
  induction values as [|v rest IH]; intros ids s s' e H.
  - discriminate.
  - destruct v; cbn [register_values] in H; unfold bind, ret in H;
      try (destruct (register_values rest (ListIds ids) s) as [[got|e'] sa] eqn:E;
           [discriminate|]; inversion H; subst; exact (IH _ _ _ _ E)).
    destruct ids as [|k ids].
    + inversion H; subst. simpl. split; [lia|]. split; reflexivity.
    + cbn [pop_id] in H. unfold ret in H. cbn [fst snd] in H.
      destruct (register_obj_effect s (with_id k o)) as (sb & Hregobj & _ & Hcb & _).
      rewrite Hregobj in H.
      destruct (register_values rest (ListIds ids) sb) as [[got|e'] sc] eqn:E;
        [discriminate|].
      inversion H; subst.
      destruct (IH _ _ _ _ E) as (Hlen & He & Hc).
      simpl. split; [lia|]. split; [exact He|]. rewrite Hc, Hcb. reflexivity.
Qed.

Lemma make_pointers_spec (recipient : IdOrWorker) (ids : list Key) :
  ∀ s : Sys,
    ∃ (ptrs : list PointerTensor) (s' : Sys),
      make_pointers recipient ids s = (Ok (VPointer <$> ptrs), s')
      ∧ id_at_location <$> ptrs = ids
      ∧ Forall (fun p => location p = recipient ∧ owner p = self (this s)) ptrs
      ∧ this s' = this s.
Proof.
  induction ids as [|k ids IH]; intros s.
  - exists []%list, s. repeat split; constructor.
  - cbn [make_pointers]. unfold bind at 1, get_this at 1. unfold bind at 1.
    unfold pop at 1.
    destruct (provider_pop (ID_PROVIDER s)) as [new_id p] eqn:Hp.
    destruct (IH (with_provider p s)) as (ptrs & s' & Hrun & Hids & Hall & Hthis).
    exists (mkPointer recipient k (self (this s)) new_id :: ptrs)%list, s'.
    split; [|split; [|split]].
    + unfold bind at 1. rewrite Hrun. reflexivity.
    + rewrite fmap_cons, Hids. reflexivity.
    + constructor; [split; reflexivity | exact Hall].
    + exact Hthis.
Qed.








End CommandFacts.



(** The renegotiation end to end: two ids requested, three tensors result;
    the exception carries the two requested ids and a new one, and the
    caller's three pointers refer to them. *)
Example renegotiation_end_to_end :
  (sample_execute chunk3_action bob_sys).1
  = Raise (ResponseSignatureError [KInt 11; KInt 12; KInt 5000])
  ∧ (send_command to_bob (AWorker bob) "chunk3" (Some (VInt 1000)) [] []
       (Some [KInt 11; KInt 12]) false alice_sys).1
    = Ok (Many [ VPointer (mkPointer (AWorker bob) (KInt 11) alice (KInt 9000));
                 VPointer (mkPointer (AWorker bob) (KInt 12) alice (KInt 9001));
                 VPointer (mkPointer (AWorker bob) (KInt 5000) alice (KInt 9002)) ]).
Proof. split; vm_compute; reflexivity. Qed.

Lemma computation_result_rule_witness :
  sample_execute numel_action bob_sys
  = (Ok (One (VInt 4)),
     (obtain_response (fun _ => false) (fun _ => ret tt)
        sample_call_method sample_call_function numel_action bob_sys).2)
  ∧ (sample_execute numel_action bob_sys
     = (Ok (One (VInt 4)),
        (obtain_response (fun _ => false) (fun _ => ret tt)
           sample_call_method sample_call_function numel_action bob_sys).2)
     ↔ return_value numel_action = true ∨ is_scalar (One (VInt 4)) = true).
Proof.
  destruct (computation_result_rule (fun _ => false) (fun _ => ret tt)
              sample_call_method sample_call_function
              bob_sys
              (obtain_response (fun _ => false) (fun _ => ret tt)
                 sample_call_method sample_call_function numel_action bob_sys).2
              (obtain_response (fun _ => false) (fun _ => ret tt)
                 sample_call_method sample_call_function numel_action bob_sys).2
              numel_action (One (VInt 4)) (One (VInt 4)))
    as (Hexec & _ & _ & Hiff).
  - vm_compute. reflexivity.
  - discriminate.
  - vm_compute. reflexivity.
  - split; [exact Hexec | exact Hiff].
Defined.

(** * Further properties of the worker *)

Section MoreRegistryFacts.

Context {Net : Type}.
Local Abbreviation Sys := (@Sys Net).

Lemma get_worker_known_id (s : Sys) (k : Key) (w : WorkerHandle) (fail_hard : bool) :
  k ≠ worker_id (this s) ->
  _known_workers (this s) !! k = Some w ->
  get_worker (ArgId k) fail_hard s = (Ok (AWorker w), s).
Proof.
  intros Hself Hreg.
  unfold get_worker, _get_worker_based_on_id, bind, get_this; simpl.
  rewrite bool_decide_eq_false_2 by exact Hself.
  rewrite Hreg. reflexivity.
Qed.

(** X1: a worker added with [add_worker] is held by the registry under its
    id, whatever the registry held there before, and the other entries are
    untouched.  [get_worker] resolves that id to the added worker afterwards,
    with either value of [fail_hard], unless the id is the worker's own id:
    then [get_worker] answers the worker itself, although the registry holds
    the added one. *)
Theorem add_worker_then_get_worker (s : Sys) (worker : WorkerHandle) (fail_hard : bool) :
  ∃ s1, add_worker worker s = (Ok tt, s1)
        ∧ _known_workers (this s1) !! handle_id worker = Some worker
        ∧ (handle_id worker ≠ worker_id (this s) ->
           get_worker (ArgId (handle_id worker)) fail_hard s1 = (Ok (AWorker worker), s1))
        ∧ (handle_id worker = worker_id (this s) ->
           get_worker (ArgId (handle_id worker)) fail_hard s1
           = (Ok (AWorker (self (this s))), s1))
        ∧ (∀ k, k ≠ handle_id worker ->
             _known_workers (this s1) !! k = _known_workers (this s) !! k)
        ∧ object_store (this s1) = object_store (this s).
Proof.
  eexists. split; [reflexivity|]. split; [|split; [|split; [|split]]].
  - simpl. apply lookup_insert_eq.
  - intros Hself. apply get_worker_known_id; simpl.
    + exact Hself.
    + apply lookup_insert_eq.
  - intros Hself.
    unfold get_worker, _get_worker_based_on_id, bind, get_this; simpl.
    rewrite bool_decide_eq_true_2 by exact Hself. reflexivity.
  - intros k Hk. simpl. rewrite lookup_insert_ne by congruence. reflexivity.
  - reflexivity.
Qed.

(** X2: [get_worker] given a worker object returns that object; it
    registers the object when its id was unknown, and leaves the registry as
    it was when the id was known already, even to another worker object. *)
Theorem get_worker_given_worker (s : Sys) (worker : WorkerHandle) (fail_hard : bool) :
  ∃ s1, get_worker (ArgWorker worker) fail_hard s = (Ok (AWorker worker), s1)
        ∧ _known_workers (this s1) !! handle_id worker
          = Some (default worker (_known_workers (this s) !! handle_id worker))
        ∧ (∀ k, k ≠ handle_id worker ->
             _known_workers (this s1) !! k = _known_workers (this s) !! k)
        ∧ (is_Some (_known_workers (this s) !! handle_id worker) -> s1 = s).
Proof.
  unfold get_worker, _get_worker, bind, get_this; simpl.
  case_bool_decide as Hin; simpl.
  - exists s. apply elem_of_dom in Hin as [old Hold].
    split; [reflexivity|]. split; [rewrite Hold; reflexivity|].
    split; [reflexivity|]. reflexivity.
  - eexists. split; [reflexivity|]. apply not_elem_of_dom in Hin. simpl.
    split; [rewrite Hin, lookup_insert_eq; reflexivity|].
    split.
    + intros k Hk. rewrite lookup_insert_ne by congruence. reflexivity.
    + intros [old Hold]. congruence.
Qed.

(** X3: [remove_worker_from_registry] raises [KeyError] for an id the
    registry does not hold, and changes nothing; for an id it holds (other
    than the worker's own) the id is unknown afterwards: [get_worker] raises
    [WorkerNotFoundException] with [fail_hard] and returns the bare id
    without. *)
Theorem remove_worker_from_registry_spec (s : Sys) (k : Key) :
  (_known_workers (this s) !! k = None ->
   remove_worker_from_registry k s = (Raise KeyError, s))
  ∧ (is_Some (_known_workers (this s) !! k) -> k ≠ worker_id (this s) ->
     ∃ s1, remove_worker_from_registry k s = (Ok tt, s1)
           ∧ get_worker (ArgId k) true s1 = (Raise WorkerNotFoundException, s1)
           ∧ get_worker (ArgId k) false s1 = (Ok (AnId k), s1)
           ∧ (∀ k', k' ≠ k ->
                _known_workers (this s1) !! k' = _known_workers (this s) !! k')).
Proof.
  split.
  - intros Hk. unfold remove_worker_from_registry, bind, get_this; simpl.
    rewrite Hk. reflexivity.
  - intros [old Hk] Hself.
    unfold remove_worker_from_registry, bind, get_this; simpl. rewrite Hk.
    eexists. split; [reflexivity|].
    assert (Hgone : ∀ fail_hard,
      get_worker (ArgId k) fail_hard
        (with_this (with_known_workers (delete k (_known_workers (this s))) (this s)) s)
      = (if fail_hard then Raise WorkerNotFoundException else Ok (AnId k),
         with_this (with_known_workers (delete k (_known_workers (this s))) (this s)) s)).
    { intros fail_hard. apply get_worker_unknown_id; simpl.
      - exact Hself.
      - apply lookup_delete_eq. }
    split; [apply (Hgone true)|]. split; [apply (Hgone false)|].
    intros k' Hk'. simpl. rewrite lookup_delete_ne by congruence. reflexivity.
Qed.

(** X4: [add_workers] never fails; afterwards the registry knows the ids it
    knew before and the ids of all the workers listed, and the object store
    is as it was. *)
Theorem add_workers_registers_all (workers : list WorkerHandle) (s : Sys) :
  ∃ s1, add_workers workers s = (Ok tt, s1)
        ∧ dom (_known_workers (this s1))
          = dom (_known_workers (this s)) ∪ list_to_set (handle_id <$> workers)
        ∧ object_store (this s1) = object_store (this s).
Proof.
  revert s. induction workers as [|w ws IH]; intros s.
  - exists s. split; [reflexivity|]. split; [|reflexivity].
    simpl. set_solver.
  - destruct (IH (with_this (with_known_workers
                     (<[handle_id w := w]> (_known_workers (this s))) (this s)) s))
      as (s1 & Hrun & Hdom & Hstore).
    exists s1. split; [|split].
    + cbn [add_workers]. unfold bind at 1. unfold add_worker at 1, modify_this.
      exact Hrun.
    + rewrite Hdom. simpl. rewrite dom_insert_L. set_solver.
    + rewrite Hstore. reflexivity.
Qed.

End MoreRegistryFacts.

Lemma add_worker_then_get_worker_witness :
  (∃ s1, add_worker (mkHandle 3 (KStr "carol")) bob_sys = (Ok tt, s1)
         ∧ get_worker (ArgId (KStr "carol")) true s1
           = (Ok (AWorker (mkHandle 3 (KStr "carol"))), s1))
  ∧ (∃ s1, add_worker (mkHandle 3 (KStr "bob")) bob_sys = (Ok tt, s1)
           ∧ _known_workers (this s1) !! KStr "bob" = Some (mkHandle 3 (KStr "bob"))
           ∧ get_worker (ArgId (KStr "bob")) true s1 = (Ok (AWorker bob), s1)).
Proof.
  split.
  - destruct (add_worker_then_get_worker bob_sys (mkHandle 3 (KStr "carol")) true)
      as (s1 & Hadd & _ & Hget & _).
    exists s1. split; [exact Hadd | apply Hget; discriminate].
  - destruct (add_worker_then_get_worker bob_sys (mkHandle 3 (KStr "bob")) true)
      as (s1 & Hadd & Hheld & _ & Hown & _).
    exists s1. split; [exact Hadd|]. split; [exact Hheld | apply Hown; reflexivity].
Defined.

Lemma remove_worker_from_registry_spec_witness :
  remove_worker_from_registry (KStr "carol") bob_sys = (Raise KeyError, bob_sys)
  ∧ ∃ s1, remove_worker_from_registry (KStr "alice") bob_sys = (Ok tt, s1)
          ∧ get_worker (ArgId (KStr "alice")) true s1 = (Raise WorkerNotFoundException, s1).
Proof.
  split.
  - apply (proj1 (remove_worker_from_registry_spec bob_sys (KStr "carol"))).
    vm_compute. reflexivity.
  - destruct (proj2 (remove_worker_from_registry_spec bob_sys (KStr "alice")))
      as (s1 & Hrm & Hget & _).
    + exists alice. vm_compute. reflexivity.
    + discriminate.
    + exists s1. split; [exact Hrm | exact Hget].
Defined.

Section MoreStoreFacts.

Context {Net : Type}.
Local Abbreviation Sys := (@Sys Net).

Lemma gc_forced_off_private (obj : Obj) :
  obj_private (gc_forced_off obj) = obj_private obj.
Proof.
  unfold gc_forced_off. destruct (obj_child obj) as [c|]; [|reflexivity].
  destruct (garbage_collect_data c); reflexivity.
Qed.

Lemma gc_forced_off_tags (obj : Obj) : obj_tags (gc_forced_off obj) = obj_tags obj.
Proof.
  unfold gc_forced_off. destruct (obj_child obj) as [c|]; [|reflexivity].
  destruct (garbage_collect_data c); reflexivity.
Qed.

Lemma gc_forced_off_idempotent (obj : Obj) :
  gc_forced_off (gc_forced_off obj) = gc_forced_off obj.
Proof.
  unfold gc_forced_off. destruct (obj_child obj) as [c|] eqn:Hc; simpl.
  - destruct (garbage_collect_data c) eqn:Hg; simpl; rewrite ?Hc, ?Hg; reflexivity.
  - rewrite Hc. reflexivity.
Qed.

(** What [get_obj] does to a stored object, in full. *)
Lemma get_obj_stored (s : Sys) (k : Key) (obj : Obj) :
  registered s !! k = Some obj ->
  get_obj k s
  = (Ok (match obj_private obj with
         | Some true => None
         | _ => Some (gc_forced_off obj)
         end),
     with_this (with_store (mkStore (<[k := gc_forced_off obj]> (registered s))) (this s)) s).
Proof.
  unfold registered, get_obj, bind, get_this, store_get_obj; simpl.
  intros ->. simpl. rewrite gc_forced_off_private.
  destruct (obj_private obj) as [[|]|]; reflexivity.
Qed.

(** X5: on a worker that is not a client worker, an object registered with
    [register_obj], under an id given with it or under its own, is what
    [get_obj] finds under that id: the object itself with its
    garbage-collection toggle forced off, or [None] when the object is
    flagged private.  Whatever was registered under that id before is
    replaced, and no other entry changes. *)
Theorem register_obj_then_get_obj (s : Sys) (obj stored : Obj) (oid : option Key) :
  is_client_worker (this s) = false ->
  stored = match oid with Some k => with_id k obj | None => obj end ->
  ∃ s1 s2,
    register_obj obj oid s = (Ok tt, s1)
    ∧ get_obj (obj_id stored) s1
      = (Ok (match obj_private obj with
             | Some true => None
             | _ => Some (gc_forced_off stored)
             end), s2)
    ∧ registered s2 !! obj_id stored = Some (gc_forced_off stored)
    ∧ (∀ k, k ≠ obj_id stored -> registered s2 !! k = registered s !! k).
Proof.
  intros Hclient Hstored.
  assert (Hreg : register_obj obj oid s
                 = (Ok tt, with_this (with_store
                      (mkStore (<[obj_id stored := stored]> (registered s))) (this s)) s)).
  { unfold register_obj, bind, get_this, modify_this, store_register_obj, registered; simpl.
    rewrite Hclient. simpl. subst stored. reflexivity. }
  eexists _, _. split; [exact Hreg|].
  assert (Hpriv : obj_private stored = obj_private obj)
    by (subst stored; destruct oid; reflexivity).
  rewrite <- Hpriv.
  split; [apply get_obj_stored; unfold registered; simpl; apply lookup_insert_eq|].
  unfold registered; simpl. split.
  - apply lookup_insert_eq.
  - intros k Hk. rewrite !lookup_insert_ne by congruence. reflexivity.
Qed.

(** X6: [registration_enabled] runs its body with [is_client_worker] off
    and always leaves it on afterwards, whatever it was before and whether
    or not the body raised; so an object registered inside it is stored even
    on a client worker, and the worker is a client worker afterwards even if
    it was none before. *)
Theorem registration_enabled_spec (s : Sys) :
  (∀ (A : Type) (body : M Sys A),
      (registration_enabled body s).1
      = (body (with_this (with_is_client_worker false (this s)) s)).1
      ∧ is_client_worker (this (registration_enabled body s).2) = true)
  ∧ (∀ (obj : Obj),
      ∃ s1, registration_enabled (register_obj obj None) s = (Ok tt, s1)
            ∧ registered s1 !! obj_id obj = Some obj
            ∧ is_client_worker (this s1) = true).
Proof.
  split.
  - intros A body. unfold registration_enabled, registration_enabled_enter,
      registration_enabled_exit, modify_this; simpl.
    destruct (body _) as [r s2]. split; reflexivity.
  - intros obj. eexists. split; [reflexivity|].
    unfold registered; simpl. split; [apply lookup_insert_eq | reflexivity].
Qed.

(** X7: [get_obj] is idempotent: asking for the same id again gives the same
    answer and changes nothing more. *)
Theorem get_obj_idempotent (s : Sys) (k : Key) :
  get_obj k (get_obj k s).2 = get_obj k s.
Proof.
  destruct (registered s !! k) as [obj|] eqn:Hk.
  - rewrite (get_obj_stored s k obj Hk). cbn [snd].
    erewrite get_obj_stored
      by (unfold registered; simpl; apply lookup_insert_eq).
    rewrite gc_forced_off_private, gc_forced_off_idempotent.
    unfold registered; simpl. rewrite insert_insert_eq. reflexivity.
  - rewrite (get_obj_absent s k Hk). cbn [snd]. apply get_obj_absent. exact Hk.
Qed.

(** X8: [get_obj] touches nothing but the garbage-collection toggle of the
    object it looks up: the other entries of the store, the set of ids
    registered, the registry of workers, the id provider and the transport
    are as they were, and the object keeps its id, its tags and its privacy
    flag. *)
Theorem get_obj_frame (s : Sys) (k : Key) :
  ∃ r s1, get_obj k s = (r, s1)
          ∧ (∀ k', k' ≠ k -> registered s1 !! k' = registered s !! k')
          ∧ dom (registered s1) = dom (registered s)
          ∧ (∀ obj, registered s !! k = Some obj ->
               ∃ obj', registered s1 !! k = Some obj'
                       ∧ obj_id obj' = obj_id obj ∧ obj_tags obj' = obj_tags obj
                       ∧ obj_private obj' = obj_private obj
                       ∧ obj_allow obj' = obj_allow obj)
          ∧ _known_workers (this s1) = _known_workers (this s)
          ∧ is_client_worker (this s1) = is_client_worker (this s)
          ∧ ID_PROVIDER s1 = ID_PROVIDER s ∧ wire s1 = wire s ∧ net s1 = net s.
Proof.
  destruct (registered s !! k) as [obj|] eqn:Hk.
  - eexists _, _. split; [apply (get_obj_stored s k obj Hk)|].
    unfold registered in *; simpl.
    split; [intros k' Hk'; rewrite lookup_insert_ne by congruence; reflexivity|].
    split.
    { rewrite dom_insert_L. apply elem_of_dom_2 in Hk. set_solver. }
    split.
    { intros obj0 Hobj0. assert (obj0 = obj) by congruence. subst obj0.
      exists (gc_forced_off obj). rewrite lookup_insert_eq.
      split; [reflexivity|].
      rewrite gc_forced_off_id, gc_forced_off_tags, gc_forced_off_private,
        gc_forced_off_allow. repeat split; reflexivity. }
    repeat split; reflexivity.
  - exists (Raise (ObjectNotFoundError k)), s.
    split; [apply get_obj_absent; exact Hk|].
    split; [reflexivity|]. split; [reflexivity|].
    split; [intros obj Hobj; congruence|].
    repeat split; reflexivity.
Qed.

(** X9: [respond_to_obj_req] raises [ObjectNotFoundError] for an id that is
    not stored, and changes nothing.  For a stored object flagged private it
    returns [None] and the object stays registered, whatever [allow] would
    say about the requester and whether or not the worker is a client
    worker: [allow] is never consulted for a private object. *)
Theorem respond_to_obj_req_absent_or_private (s : Sys) (k : Key) (user : User)
    (reason : string) :
  (registered s !! k = None ->
   respond_to_obj_req k user reason s = (Raise (ObjectNotFoundError k), s))
  ∧ (∀ obj, registered s !! k = Some obj -> obj_private obj = Some true ->
       ∃ s1, respond_to_obj_req k user reason s = (Ok None, s1)
             ∧ registered s1 !! k = Some (gc_forced_off obj)).
Proof.
  split.
  - intros Hk. unfold respond_to_obj_req, bind. rewrite (get_obj_absent s k Hk).
    reflexivity.
  - intros obj Hk Hpriv. unfold respond_to_obj_req, bind.
    rewrite (get_obj_stored s k obj Hk), Hpriv. simpl.
    unfold de_register_obj, bind, get_this; simpl.
    destruct (is_client_worker (this s)); simpl; eexists; (split; [reflexivity|]);
      unfold registered; simpl; apply lookup_insert_eq.
Qed.

(** X10: on a worker that is not a client worker, registering an object
    under an id not in use and deregistering it again gives back the store
    as it was. *)
Theorem register_obj_then_de_register_obj (s : Sys) (obj : Obj) :
  is_client_worker (this s) = false ->
  registered s !! obj_id obj = None ->
  ∃ s1 s2, register_obj obj None s = (Ok tt, s1)
           ∧ de_register_obj (Some obj) s1 = (Ok tt, s2)
           ∧ registered s2 = registered s.
Proof.
  intros Hclient Hfree.
  destruct (register_obj_effect s obj) as (s1 & Hreg & _ & Hc1 & Hst1).
  destruct (de_register_obj_effect s1 obj) as (s2 & Hde & Hst2).
  exists s1, s2. split; [exact Hreg|]. split; [exact Hde|].
  rewrite Hst2, Hc1, Hclient, Hst1, Hclient.
  apply delete_insert_id. exact Hfree.
Qed.

(** X11: [objects_count] after [register_obj] on a worker that is not a
    client worker: one more than before when the id was not in use, the same
    as before when the object replaces another under its id. *)
Theorem register_obj_objects_count (s : Sys) (obj stored : Obj) (oid : option Key) :
  is_client_worker (this s) = false ->
  stored = match oid with Some k => with_id k obj | None => obj end ->
  ∃ s1 n, register_obj obj oid s = (Ok tt, s1)
          ∧ objects_count s = (Ok n, s)
          ∧ objects_count s1
            = (Ok (match registered s !! obj_id stored with
                   | Some _ => n
                   | None => S n
                   end), s1).
Proof.
  intros Hclient Hstored.
  unfold register_obj, objects_count, bind, get_this, modify_this, store_register_obj;
    simpl.
  rewrite Hclient. simpl.
  eexists _, _. split; [reflexivity|]. split; [reflexivity|].
  unfold ret. f_equal. f_equal. subst stored. unfold registered.
  cbn [this with_this object_store with_store _objects].
  rewrite map_size_insert.
  destruct (_objects (object_store (this s)) !! _); reflexivity.
Qed.

(** X12: after [clear_objects] the worker holds no object: every [get_obj]
    raises [ObjectNotFoundError], [objects_count] is 0 and the search for
    everything finds nothing; the call returns the worker itself when
    [return_self] is set and [None] otherwise, and the registry of workers is
    kept. *)
Theorem worker_clear_objects_spec (s : Sys) (return_self : bool) :
  ∃ s1, worker_clear_objects return_self s
        = (Ok (if return_self then Some (self (this s)) else None), s1)
        ∧ (∀ k, get_obj k s1 = (Raise (ObjectNotFoundError k), s1))
        ∧ objects_count s1 = (Ok 0%nat, s1)
        ∧ search (QList []) s1 = (Ok [], s1)
        ∧ _known_workers (this s1) = _known_workers (this s).
Proof.
  eexists. split; [reflexivity|].
  split; [intros k; apply get_obj_absent; reflexivity|].
  split; [reflexivity|]. split; [|reflexivity].
  unfold search, bind, get_this; simpl.
  unfold tagged_object_ids; simpl.
  rewrite map_filter_empty, dom_empty_L, elements_empty. reflexivity.
Qed.

End MoreStoreFacts.

Lemma register_obj_then_get_obj_witness :
  ∃ s1 s2, register_obj tensor_x (Some (KInt 42)) alice_sys = (Ok tt, s1)
           ∧ get_obj (KInt 42) s1
             = (Ok (Some (gc_forced_off (with_id (KInt 42) tensor_x))), s2).
Proof.
  destruct (register_obj_then_get_obj alice_sys tensor_x (with_id (KInt 42) tensor_x)
              (Some (KInt 42)) eq_refl eq_refl)
    as (s1 & s2 & Hreg & Hget & _).
  exists s1, s2. split; [exact Hreg | exact Hget].
Defined.

Lemma respond_to_obj_req_absent_or_private_witness :
  respond_to_obj_req (KInt 99) None "" bob_sys = (Raise (ObjectNotFoundError (KInt 99)), bob_sys)
  ∧ ∃ s1, respond_to_obj_req (KInt 7) None "" bob_sys = (Ok None, s1)
          ∧ registered s1 !! KInt 7 = Some (gc_forced_off secret_y).
Proof.
  split.
  - apply (proj1 (respond_to_obj_req_absent_or_private bob_sys (KInt 99) None "")).
    vm_compute. reflexivity.
  - apply (proj2 (respond_to_obj_req_absent_or_private bob_sys (KInt 7) None "") secret_y).
    + vm_compute. reflexivity.
    + reflexivity.
Defined.

Lemma register_obj_then_de_register_obj_witness :
  ∃ s1 s2, register_obj tensor_x None alice_sys = (Ok tt, s1)
           ∧ de_register_obj (Some tensor_x) s1 = (Ok tt, s2)
           ∧ registered s2 = registered alice_sys.
Proof.
  apply (register_obj_then_de_register_obj alice_sys tensor_x).
  - reflexivity.
  - vm_compute. reflexivity.
Defined.

Lemma register_obj_objects_count_witness :
  ∃ s1 n, register_obj tensor_x None bob_sys = (Ok tt, s1)
          ∧ objects_count bob_sys = (Ok n, bob_sys)
          ∧ objects_count s1
            = (Ok (match registered bob_sys !! obj_id tensor_x with
                   | Some _ => n
                   | None => S n
                   end), s1).
Proof.
  apply (register_obj_objects_count bob_sys tensor_x tensor_x None).
  - reflexivity.
  - reflexivity.
Defined.

Section MoreSearchFacts.

Context {Net : Type}.
Local Abbreviation Sys := (@Sys Net).

Lemma elem_of_tagged_object_ids (st : ObjectStore) (k : Key) :
  k ∈ tagged_object_ids st ↔ ∃ o, _objects st !! k = Some o ∧ obj_tags o ≠ ∅.
Proof.
  unfold tagged_object_ids. rewrite elem_of_dom. unfold is_Some.
  split.
  - intros [o Ho]. apply map_lookup_filter_Some in Ho as [Ho Ht]. eauto.
  - intros [o [Ho Ht]]. exists o. apply map_lookup_filter_Some. split; assumption.
Qed.

(** What [get_obj] answers for each of a list of distinct stored ids. *)
Lemma get_objs_spec (ids : list Key) :
  ∀ s : Sys,
    NoDup ids ->
    (∀ k, k ∈ ids -> is_Some (registered s !! k)) ->
    ∃ s1,
      get_objs ids s
      = (Ok ((fun k => match registered s !! k with
                       | Some orig =>
                           match obj_private orig with
                           | Some true => None
                           | _ => Some (gc_forced_off orig)
                           end
                       | None => None
                       end) <$> ids), s1)
      ∧ (∀ k, k ∉ ids -> registered s1 !! k = registered s !! k)
      ∧ dom (registered s1) = dom (registered s)
      ∧ _known_workers (this s1) = _known_workers (this s).
Proof.
  induction ids as [|k ids IH]; intros s Hnodup Hin.
  - exists s. repeat split; reflexivity.
  - apply NoDup_cons in Hnodup as [Hk Hnodup].
    destruct (Hin k ltac:(left)) as [orig Horig].
    pose proof (get_obj_stored s k orig Horig) as Hget.
    set (s' := with_this (with_store
                 (mkStore (<[k := gc_forced_off orig]> (registered s))) (this s)) s) in *.
    assert (Hother : ∀ k', k' ≠ k -> registered s' !! k' = registered s !! k').
    { intros k' Hk'. unfold registered, s'; simpl.
      rewrite lookup_insert_ne by congruence. reflexivity. }
    destruct (IH s' Hnodup) as (s1 & Hrun & Hkeep & Hdom & Hreg).
    { intros k' Hk'. rewrite Hother; [apply Hin; right; exact Hk'|].
      intros ->. contradiction. }
    exists s1. split; [|split; [|split]].
    + cbn [get_objs]. unfold bind at 1. rewrite Hget. unfold bind at 1.
      rewrite Hrun. unfold ret. rewrite fmap_cons, Horig. f_equal. f_equal. f_equal.
      apply list_fmap_ext. intros i k' Hk'.
      rewrite Hother; [reflexivity|].
      intros ->. apply Hk. eapply list_elem_of_lookup_2. exact Hk'.
    + intros k' Hk'. apply not_elem_of_cons in Hk' as [Hne Hk'].
      rewrite (Hkeep k' Hk'). apply Hother. exact Hne.
    + rewrite Hdom. unfold registered, s'; simpl. rewrite dom_insert_L.
      apply elem_of_dom_2 in Horig. unfold registered in Horig. set_solver.
    + rewrite Hreg. reflexivity.
Qed.

(** X13: the empty query never raises.  It answers with one entry for each
    object that carries a tag: the object with its garbage-collection toggle
    forced off, or [None] in the place of an object flagged private; objects
    without tags are not among the entries.  The set of ids registered is as
    it was. *)
Theorem search_empty_query (s : Sys) :
  ∃ entries s1,
    search (QList []) s = (Ok entries, s1)
    ∧ length entries = size (tagged_object_ids (object_store (this s)))
    ∧ (∀ o, Some o ∈ entries ->
         ∃ k orig, registered s !! k = Some orig ∧ obj_tags orig ≠ ∅
                   ∧ obj_private orig ≠ Some true ∧ o = gc_forced_off orig)
    ∧ (∀ k orig, registered s !! k = Some orig -> obj_tags orig ≠ ∅ ->
         obj_private orig ≠ Some true -> Some (gc_forced_off orig) ∈ entries)
    ∧ dom (registered s1) = dom (registered s).
Proof.
  destruct (get_objs_spec (elements (tagged_object_ids (object_store (this s)))) s)
    as (s1 & Hrun & _ & Hdom & _).
  { apply NoDup_elements. }
  { intros k Hk. apply elem_of_elements, elem_of_tagged_object_ids in Hk
      as (o & Ho & _). exists o. exact Ho. }
  eexists _, s1. split; [exact Hrun|].
  split; [rewrite length_fmap; reflexivity|].
  split; [|split; [|exact Hdom]].
  - intros o Ho. apply list_elem_of_fmap in Ho as (k & Hentry & Hk).
    apply elem_of_elements, elem_of_tagged_object_ids in Hk as (orig & Horig & Htags).
    exists k, orig. unfold registered in *. rewrite Horig in Hentry.
    split; [exact Horig|]. split; [exact Htags|].
    destruct (obj_private orig) as [[|]|]; try discriminate;
      (split; [discriminate | congruence]).
  - intros k orig Horig Htags Hpriv.
    apply list_elem_of_fmap. exists k. split.
    + rewrite Horig. destruct (obj_private orig) as [[|]|]; congruence.
    + apply elem_of_elements, elem_of_tagged_object_ids. exists orig.
      split; assumption.
Qed.

Lemma search_loop_falsy (st : ObjectStore) (rest : list Key) (acc : option (gset Key)) :
  rest ≠ [] ->
  truthy acc = false ->
  search_loop st rest acc = search_loop st rest None.
Proof.
  intros Hrest Hacc. destruct rest as [|t ts]; [contradiction|].
  simpl. rewrite Hacc. reflexivity.
Qed.

Lemma search_loop_skips (st : ObjectStore) (pre : list Key) :
  Forall (fun t => find_by_id st t = None ∧ find_by_tag st t = ∅) pre ->
  ∀ acc, truthy acc = false ->
    ∃ acc', truthy acc' = false
            ∧ ∀ rest, search_loop st (pre ++ rest) acc = search_loop st rest acc'.
Proof.
  induction 1 as [|t pre [Hid Htag] Hpre IH]; intros acc Hacc.
  - exists acc. split; [exact Hacc|]. reflexivity.
  - destruct (IH (Some ∅)) as (acc' & Hacc' & Hrun).
    { simpl. rewrite bool_decide_eq_true_2 by reflexivity. reflexivity. }
    exists acc'. split; [exact Hacc'|].
    intros rest. simpl. rewrite (id_hit_not_found _ _ Hid), Hacc, Htag. apply Hrun.
Qed.

(** X14: terms at the front of a query that are no ids and that no object
    is tagged with are dropped when a term follows them: the query is
    answered as if it started after them, so [search([a, b])] with nothing
    tagged [a] finds everything tagged [b].  A query made of such terms only
    finds nothing. *)
Theorem search_drops_leading_terms_without_matches (s : Sys) (pre rest : list Key) :
  Forall (fun t => find_by_id (object_store (this s)) t = None
                   ∧ find_by_tag (object_store (this s)) t = ∅) pre ->
  (rest ≠ [] -> search (QList (pre ++ rest)) s = search (QList rest) s)
  ∧ (pre ≠ [] -> search (QList pre) s = (Ok [], s)).
Proof.
  intros Hpre.
  destruct (search_loop_skips _ pre Hpre None eq_refl) as (acc' & Hacc' & Hrun).
  split.
  - intros Hrest.
    assert (Hloop : search_loop (object_store (this s)) (pre ++ rest) None
                    = search_loop (object_store (this s)) rest None).
    { rewrite Hrun. apply search_loop_falsy; assumption. }
    unfold search, bind, get_this; cbn beta iota.
    destruct rest as [|r rs]; [contradiction|].
    destruct (pre ++ r :: rs)%list as [|q qs] eqn:Hq.
    { destruct pre; discriminate. }
    rewrite Hloop. reflexivity.
  - intros Hne.
    assert (Hloop : search_loop (object_store (this s)) pre None = Ok acc').
    { rewrite <- (app_nil_r pre) at 1. rewrite Hrun. reflexivity. }
    unfold search, bind, get_this; cbn beta iota.
    destruct pre as [|q qs]; [contradiction|].
    rewrite Hloop.
    destruct acc' as [results|]; [|reflexivity].
    simpl in Hacc'. apply negb_false_iff, bool_decide_eq_true in Hacc'. subst results.
    unfold objects_of. rewrite elements_empty. reflexivity.
Qed.

Lemma search_loop_no_ids (st : ObjectStore) (pre : list Key) :
  Forall (fun t => find_by_id st t = None) pre ->
  ∀ acc, ∃ acc', ∀ post, search_loop st (pre ++ post) acc = search_loop st post acc'.
Proof.
  induction 1 as [|t pre Hid Hpre IH]; intros acc.
  - exists acc. reflexivity.
  - destruct (IH (Some (if truthy acc then default ∅ acc ∩ find_by_tag st t
                        else find_by_tag st t))) as (acc' & Hrun).
    exists acc'. intros post. simpl. rewrite (id_hit_not_found _ _ Hid). apply Hrun.
Qed.

(** X15: a query of tags whose last term no object is tagged with finds
    nothing, whatever the terms before it match. *)
Theorem search_last_term_without_matches (s : Sys) (pre : list Key) (t : Key) :
  Forall (fun t => find_by_id (object_store (this s)) t = None) (pre ++ [t]) ->
  find_by_tag (object_store (this s)) t = ∅ ->
  search (QList (pre ++ [t])) s = (Ok [], s).
Proof.
  intros Hids Htag.
  apply Forall_app in Hids as [Hpre Ht]. inversion Ht as [|? ? Hid _]; subst.
  assert (Hloop : search_loop (object_store (this s)) (pre ++ [t]) None = Ok (Some ∅)).
  { destruct (search_loop_no_ids _ pre Hpre None) as (acc' & Hrun).
    rewrite Hrun. simpl. rewrite (id_hit_not_found _ _ Hid), Htag.
    destruct (truthy _); [rewrite intersection_empty_r_L|]; reflexivity. }
  unfold search, bind, get_this; cbn beta iota.
  destruct (pre ++ [t])%list as [|q qs] eqn:Hq.
  { destruct pre; discriminate. }
  rewrite Hloop. unfold objects_of. rewrite elements_empty. reflexivity.
Qed.

(** The loop fails only on a term that is the id of a stored object whose
    truth value cannot be taken. *)
Lemma search_loop_raise (st : ObjectStore) (terms : list Key) :
  ∀ acc e, search_loop st terms acc = Raise e ->
    ∃ k o, k ∈ terms ∧ find_by_id st k = Some o ∧ obj_bool o = Raise e.
Proof.
  induction terms as [|t ts IH]; intros acc e Hrun; simpl in Hrun.
  - discriminate.
  - unfold id_hit in Hrun. destruct (find_by_id st t) as [o|] eqn:Hid.
    + destruct (obj_bool o) as [[|]|e'] eqn:Hbool.
      * discriminate.
      * destruct (IH _ _ Hrun) as (k & o' & Hk & Ho' & He).
        exists k, o'. split; [right; exact Hk|]. split; assumption.
      * inversion Hrun; subst. exists t, o. split; [left|]. split; assumption.
    + destruct (IH _ _ Hrun) as (k & o' & Hk & Ho' & He).
      exists k, o'. split; [right; exact Hk|]. split; assumption.
Qed.

Lemma search_terms_outcome (s : Sys) (terms : list Key) :
  ∃ r,
    match search_loop (object_store (this s)) terms None with
    | Raise e => raise e
    | Ok (Some results) => ret (Some <$> objects_of (object_store (this s)) results)
    | Ok None => ret []
    end s = (r, s)
    ∧ (∀ entries, r = Ok entries ->
         ∃ objs, entries = Some <$> objs
                 ∧ ∀ o, o ∈ objs -> ∃ k, registered s !! k = Some o)
    ∧ (∀ e, r = Raise e ->
         ∃ k o, k ∈ terms ∧ registered s !! k = Some o ∧ obj_bool o = Raise e).
Proof.
  destruct (search_loop _ terms None) as [[results|]|e] eqn:Hloop.
  - eexists. split; [reflexivity|]. split; [|discriminate].
    intros entries Hentries. inversion Hentries; subst.
    exists (objects_of (object_store (this s)) results). split; [reflexivity|].
    intros o Ho. unfold objects_of in Ho.
    apply list_elem_of_omap in Ho as (k & _ & Hk). exists k. exact Hk.
  - eexists. split; [reflexivity|]. split; [|discriminate].
    intros entries Hentries. inversion Hentries; subst.
    exists []%list. split; [reflexivity|]. intros o Ho. apply elem_of_nil in Ho.
    contradiction.
  - eexists. split; [reflexivity|]. split; [discriminate|].
    intros e' He'. inversion He'; subst. apply (search_loop_raise _ _ _ _ Hloop).
Qed.

(** X16: a query with at least one term only reads: whether it answers or
    raises, it leaves the whole process as it was (no garbage-collection
    toggle is touched).  When it answers, every entry is an object registered
    in the store, never [None].  It raises only when one of its terms is the
    id of a stored object whose truth value cannot be taken, and then with the
    exception of that object. *)
Theorem search_with_terms_read_only (s : Sys) (query : Query) :
  query ≠ QList [] ->
  ∃ r, search query s = (r, s)
       ∧ (∀ entries, r = Ok entries ->
            ∃ objs, entries = Some <$> objs
                    ∧ ∀ o, o ∈ objs -> ∃ k, registered s !! k = Some o)
       ∧ (∀ e, r = Raise e ->
            ∃ k o, k ∈ match query with QTerm t => [t] | QList l => l end
                   ∧ registered s !! k = Some o ∧ obj_bool o = Raise e).
Proof.
  intros Hq. unfold search, bind, get_this; cbn beta iota.
  destruct query as [k|[|t ts]]; [|contradiction|]; apply search_terms_outcome.
Qed.

(** X17: a search by id hands out the stored object as it is, also when the
    object is flagged private, provided its truth value is true, where
    [get_obj] for the same id answers [None]. *)
Theorem search_by_id_ignores_privacy (s : Sys) (k : Key) (obj : Obj) :
  registered s !! k = Some obj ->
  obj_private obj = Some true ->
  obj_bool obj = Ok true ->
  search (QTerm k) s = (Ok [Some obj], s)
  ∧ (get_obj k s).1 = Ok None.
Proof.
  intros Hk Hpriv Htrue. split.
  - unfold search, bind, get_this; cbn beta iota.
    unfold registered in Hk. simpl. unfold id_hit, find_by_id. rewrite Hk, Htrue. simpl.
    rewrite (objects_of_singleton _ k obj Hk). reflexivity.
  - rewrite (get_obj_stored s k obj Hk), Hpriv. reflexivity.
Qed.

End MoreSearchFacts.

Lemma search_drops_leading_terms_without_matches_witness :
  search (QList ([KStr "nowhere"] ++ [KStr "model"])) bob_sys
  = search (QList [KStr "model"]) bob_sys
  ∧ search (QList [KStr "nowhere"]) bob_sys = (Ok [], bob_sys).
Proof.
  destruct (search_drops_leading_terms_without_matches bob_sys [KStr "nowhere"]
              [KStr "model"]) as [Hrest Hpre].
  - constructor; [split; vm_compute; reflexivity | constructor].
  - split; [apply Hrest | apply Hpre]; discriminate.
Defined.

Lemma search_last_term_without_matches_witness :
  search (QList ([KStr "model"] ++ [KStr "nowhere"])) bob_sys = (Ok [], bob_sys).
Proof.
  apply (search_last_term_without_matches bob_sys [KStr "model"] (KStr "nowhere")).
  - repeat constructor.
  - vm_compute. reflexivity.
Defined.

Lemma search_with_terms_read_only_witness :
  ∃ r, search (QList [KStr "model"; KStr "v1"]) bob_sys = (r, bob_sys)
       ∧ (∀ entries, r = Ok entries ->
            ∃ objs, entries = Some <$> objs
                    ∧ ∀ o, o ∈ objs -> ∃ k, registered bob_sys !! k = Some o).
Proof.
  destruct (search_with_terms_read_only bob_sys (QList [KStr "model"; KStr "v1"]))
    as (r & Hrun & Hok & _).
  - discriminate.
  - exists r. split; [exact Hrun | exact Hok].
Defined.

Lemma search_by_id_ignores_privacy_witness :
  search (QTerm (KInt 7)) bob_sys = (Ok [Some secret_y], bob_sys)
  ∧ (get_obj (KInt 7) bob_sys).1 = Ok None.
Proof.
  apply (search_by_id_ignores_privacy bob_sys (KInt 7) secret_y).
  - vm_compute. reflexivity.
  - reflexivity.
  - reflexivity.
Defined.

Section MoreSendFacts.

Context {Net : Type}.
Local Abbreviation Sys := (@Sys Net).
Variable _send_msg : Message -> IdOrWorker -> Net -> Result PyVal * Net.

Local Abbreviation send' := (send _send_msg).
Local Abbreviation send_command' := (send_command _send_msg).

(** X18: what [send] to a single destination gives back once the transport
    has delivered the object.  The message carries the object, tagged with
    the sender's id and the object's id as its origin exactly when
    [requires_grad] is set.  The result is [None] when no pointer is asked
    for; otherwise, for an object that can be pointed to, a pointer to the
    object's id at the resolved destination, owned by the sender and named
    [ptr_id] or else by the next id of the id provider; and otherwise the
    object itself.  The id provider is used for nothing else. *)
Theorem send_outcome (s s1 : Sys) (obj : Obj) (worker dest : IdOrWorker)
    (ptr_id : option Key) (requires_grad create_pointer : bool) (reply : PyVal) (n : Net) :
  get_worker (as_arg worker) false s = (Ok dest, s1) ->
  _send_msg (ObjectMessage (if requires_grad
                            then with_origin (Some (worker_id (this s))) (Some (obj_id obj)) obj
                            else obj)) dest (net s1) = (Ok reply, n) ->
  ∃ s2,
    send' obj (OneWorker worker) ptr_id requires_grad create_pointer s
    = (Ok (if negb create_pointer then VNone
           else if obj_pointable obj
                then VPointer (mkPointer dest (obj_id obj) (self (this s))
                                 (match ptr_id with
                                  | Some p => p
                                  | None => (provider_pop (ID_PROVIDER s1)).1
                                  end))
                else VObj (if requires_grad then with_origin None None obj else obj)), s2)
    ∧ this s2 = this s1
    ∧ ID_PROVIDER s2
      = (if create_pointer && obj_pointable obj
         then match ptr_id with
              | Some _ => ID_PROVIDER s1
              | None => (provider_pop (ID_PROVIDER s1)).2
              end
         else ID_PROVIDER s1).
Proof.
  intros Hget Hsend.
  unfold send, bind, get_this; simpl. rewrite Hget.
  unfold send_obj, send_msg. rewrite Hsend. cbn [fst snd].
  assert (Hp : obj_pointable (if requires_grad then with_origin None None obj else obj)
               = obj_pointable obj) by (destruct requires_grad; reflexivity).
  assert (Hi : obj_id (if requires_grad then with_origin None None obj else obj)
               = obj_id obj) by (destruct requires_grad; reflexivity).
  destruct create_pointer; simpl; [|eexists; repeat split; reflexivity].
  rewrite Hp, Hi.
  destruct (obj_pointable obj); simpl; [|eexists; repeat split; reflexivity].
  destruct ptr_id as [p|]; simpl; [eexists; repeat split; reflexivity|].
  unfold pop; simpl. destruct (provider_pop (ID_PROVIDER s1)) as [k p'].
  eexists; repeat split; reflexivity.
Qed.

(** X19: when the transport fails, [send] fails with the same exception;
    no pointer is made and no id is taken from the id provider. *)
Theorem send_transport_failure (s s1 : Sys) (obj : Obj) (worker dest : IdOrWorker)
    (ptr_id : option Key) (requires_grad create_pointer : bool) (e : Exn) (n : Net) :
  get_worker (as_arg worker) false s = (Ok dest, s1) ->
  _send_msg (ObjectMessage (if requires_grad
                            then with_origin (Some (worker_id (this s))) (Some (obj_id obj)) obj
                            else obj)) dest (net s1) = (Raise e, n) ->
  ∃ s2, send' obj (OneWorker worker) ptr_id requires_grad create_pointer s = (Raise e, s2)
        ∧ ID_PROVIDER s2 = ID_PROVIDER s1 ∧ this s2 = this s1.
Proof.
  intros Hget Hsend.
  unfold send, bind, get_this; simpl. rewrite Hget.
  unfold send_obj, send_msg. rewrite Hsend.
  eexists; repeat split; reflexivity.
Qed.

(** X20: sending to a worker object whose id the registry does not know
    makes the worker known: after the call, whether or not the transport
    succeeded, the registry resolves that id to the worker sent to. *)
Theorem send_registers_destination (s : Sys) (obj : Obj) (w : WorkerHandle)
    (ptr_id : option Key) (requires_grad create_pointer : bool) :
  _known_workers (this s) !! handle_id w = None ->
  _known_workers
    (this (send' obj (OneWorker (AWorker w)) ptr_id requires_grad create_pointer s).2)
  !! handle_id w = Some w.
Proof.
  intros Hnew.
  assert (Hget : get_worker (ArgWorker w) false s
                 = (Ok (AWorker w),
                    with_this (with_known_workers
                                 (<[handle_id w := w]> (_known_workers (this s))) (this s)) s)).
  { unfold get_worker, _get_worker, bind, get_this; simpl.
    rewrite bool_decide_eq_false_2 by (apply not_elem_of_dom; exact Hnew).
    reflexivity. }
  unfold send, bind, get_this. cbn [as_arg]. rewrite Hget.
  unfold send_obj, send_msg.
  destruct (_send_msg _ (AWorker w) _) as [[reply|e] n]; simpl;
    [|apply lookup_insert_eq].
  destruct create_pointer; simpl; [|apply lookup_insert_eq].
  destruct (obj_pointable _); simpl; [|apply lookup_insert_eq].
  destruct ptr_id; simpl; [apply lookup_insert_eq|].
  unfold pop; simpl. destruct (provider_pop _); simpl. apply lookup_insert_eq.
Qed.

(** X21: [send_command] hands back a reply that is neither [None] nor
    [bytes] as it is: no pointer is made, and with return ids given the id
    provider is not used. *)
Theorem send_command_returns_value (s : Sys) (recipient : IdOrWorker) (cmd_name : string)
    (target : option Value) (args_ : list Value) (kwargs_ : Kwargs) (ids : list Key)
    (return_value : bool) (reply : PyVal) (n : Net) :
  _send_msg (TensorCommandMessage (Computation
               (mkComputation cmd_name target args_ kwargs_ ids return_value)))
    recipient (net s) = (Ok reply, n) ->
  is_none_or_bytes reply = false ->
  ∃ s1, send_command' recipient cmd_name target args_ kwargs_ (Some ids) return_value s
        = (Ok reply, s1)
        ∧ ID_PROVIDER s1 = ID_PROVIDER s ∧ this s1 = this s.
Proof.
  intros Hsend Hreply.
  unfold send_command, bind, ret, except_ResponseSignatureError, send_msg.
  rewrite Hsend. cbn [fst snd]. rewrite Hreply.
  eexists; repeat split; reflexivity.
Qed.

(** X22: when the reply is [None] or [bytes], [send_command] answers with
    pointers to the return ids at the recipient, owned by the sender: one
    pointer for each id and in their order, a single pointer rather than a
    list when there is one id. *)
Theorem send_command_makes_pointers (s : Sys) (recipient : IdOrWorker) (cmd_name : string)
    (target : option Value) (args_ : list Value) (kwargs_ : Kwargs) (ids : list Key)
    (return_value : bool) (reply : PyVal) (n : Net) :
  _send_msg (TensorCommandMessage (Computation
               (mkComputation cmd_name target args_ kwargs_ ids return_value)))
    recipient (net s) = (Ok reply, n) ->
  is_none_or_bytes reply = true ->
  ∃ ptrs s1,
    send_command' recipient cmd_name target args_ kwargs_ (Some ids) return_value s
    = (Ok (unwrap_single (VPointer <$> ptrs)), s1)
    ∧ id_at_location <$> ptrs = ids
    ∧ Forall (fun p => location p = recipient ∧ owner p = self (this s)) ptrs.
Proof.
  intros Hsend Hreply.
  destruct (make_pointers_spec recipient ids
              (mkSys (this s) (ID_PROVIDER s) n
                 (wire s ++ [(TensorCommandMessage (Computation
                    (mkComputation cmd_name target args_ kwargs_ ids return_value)),
                    recipient)])))
    as (ptrs & s1 & Hrun & Hids & Hall & _).
  exists ptrs, s1. split; [|split; [exact Hids | exact Hall]].
  unfold send_command, bind, ret, except_ResponseSignatureError, send_msg.
  rewrite Hsend. cbn [fst snd]. rewrite Hreply, Hrun. reflexivity.
Qed.

(** X23: without return ids [send_command] takes one from the id provider,
    asks for it in the command it sends, and, the reply being [None],
    answers with a single pointer to that id. *)
Theorem send_command_default_return_id (s : Sys) (recipient : IdOrWorker)
    (cmd_name : string) (target : option Value) (args_ : list Value) (kwargs_ : Kwargs)
    (return_value : bool) (n : Net) :
  _send_msg (TensorCommandMessage (Computation
               (mkComputation cmd_name target args_ kwargs_
                  [(provider_pop (ID_PROVIDER s)).1] return_value)))
    recipient (net s) = (Ok PyNone, n) ->
  ∃ p s1,
    send_command' recipient cmd_name target args_ kwargs_ None return_value s
    = (Ok (One (VPointer p)), s1)
    ∧ id_at_location p = (provider_pop (ID_PROVIDER s)).1
    ∧ location p = recipient ∧ owner p = self (this s)
    ∧ wire s1
      = (wire s ++ [(TensorCommandMessage (Computation
                       (mkComputation cmd_name target args_ kwargs_
                          [(provider_pop (ID_PROVIDER s)).1] return_value)), recipient)])%list.
Proof.
  intros Hsend.
  unfold send_command, bind, ret, except_ResponseSignatureError, send_msg, pop.
  destruct (provider_pop (ID_PROVIDER s)) as [k p1] eqn:Hpop. cbn [fst snd] in *.
  cbn [net with_provider this ID_PROVIDER wire]. rewrite Hsend. cbn [fst snd].
  cbn [is_none_or_bytes PyNone make_pointers]. unfold bind, get_this, pop, ret.
  cbn [this ID_PROVIDER]. destruct (provider_pop p1) as [k2 p2].
  eexists _, _. split; [reflexivity|]. repeat split; reflexivity.
Qed.


End MoreSendFacts.

Lemma send_outcome_witness :
  ∃ s2,
    send (fun _ _ n => (Ok PyNone, n)) tensor_x (OneWorker (AnId (KStr "bob"))) None
      false true alice_sys
    = (Ok (VPointer (mkPointer (AWorker bob) (KInt 1000) alice (KInt 9000))), s2).
Proof.
  destruct (send_outcome (fun _ _ n => (Ok PyNone, n)) alice_sys alice_sys tensor_x
              (AnId (KStr "bob")) (AWorker bob) None false true PyNone tt)
    as (s2 & Hrun & _).
  - vm_compute. reflexivity.
  - reflexivity.
  - exists s2. exact Hrun.
Defined.

Lemma send_transport_failure_witness :
  ∃ s2,
    send (fun _ _ n => (Raise NotImplementedError, n)) tensor_x
      (OneWorker (AnId (KStr "bob"))) None false true alice_sys
    = (Raise NotImplementedError, s2)
    ∧ ID_PROVIDER s2 = ID_PROVIDER alice_sys.
Proof.
  destruct (send_transport_failure (fun _ _ n => (Raise NotImplementedError, n))
              alice_sys alice_sys tensor_x (AnId (KStr "bob")) (AWorker bob) None false true
              NotImplementedError tt)
    as (s2 & Hrun & Hprov & _).
  - vm_compute. reflexivity.
  - reflexivity.
  - exists s2. split; [exact Hrun | exact Hprov].
Defined.

Lemma send_registers_destination_witness :
  _known_workers
    (this (send (fun _ _ n => (Ok PyNone, n)) tensor_x
             (OneWorker (AWorker (mkHandle 3 (KStr "carol")))) None false true alice_sys).2)
  !! KStr "carol" = Some (mkHandle 3 (KStr "carol")).
Proof.
  apply (send_registers_destination (fun _ _ n => (Ok PyNone, n)) alice_sys tensor_x
           (mkHandle 3 (KStr "carol")) None false true).
  vm_compute. reflexivity.
Defined.

Lemma send_command_returns_value_witness :
  ∃ s1, send_command (fun _ _ n => (Ok (One (VInt 4)), n)) (AWorker bob) "numel"
          (Some (VInt 1000)) [] [] (Some [KInt 11]) false alice_sys
        = (Ok (One (VInt 4)), s1)
        ∧ ID_PROVIDER s1 = ID_PROVIDER alice_sys.
Proof.
  destruct (send_command_returns_value (fun _ _ n => (Ok (One (VInt 4)), n)) alice_sys
              (AWorker bob) "numel" (Some (VInt 1000)) [] [] [KInt 11] false
              (One (VInt 4)) tt eq_refl eq_refl)
    as (s1 & Hrun & Hprov & _).
  exists s1. split; [exact Hrun | exact Hprov].
Defined.

Lemma send_command_makes_pointers_witness :
  ∃ ptrs s1,
    send_command (fun _ _ n => (Ok PyNone, n)) (AWorker bob) "add"
      (Some (VInt 1000)) [] [] (Some [KInt 11; KInt 12]) false alice_sys
    = (Ok (unwrap_single (VPointer <$> ptrs)), s1)
    ∧ id_at_location <$> ptrs = [KInt 11; KInt 12].
Proof.
  destruct (send_command_makes_pointers (fun _ _ n => (Ok PyNone, n)) alice_sys
              (AWorker bob) "add" (Some (VInt 1000)) [] [] [KInt 11; KInt 12] false
              PyNone tt eq_refl eq_refl)
    as (ptrs & s1 & Hrun & Hids & _).
  exists ptrs, s1. split; [exact Hrun | exact Hids].
Defined.

Lemma send_command_default_return_id_witness :
  ∃ p s1,
    send_command (fun _ _ n => (Ok PyNone, n)) (AWorker bob) "add"
      (Some (VInt 1000)) [] [] None false alice_sys
    = (Ok (One (VPointer p)), s1)
    ∧ id_at_location p = KInt 9000.
Proof.
  destruct (send_command_default_return_id (fun _ _ n => (Ok PyNone, n)) alice_sys
              (AWorker bob) "add" (Some (VInt 1000)) [] [] false tt eq_refl)
    as (p & s1 & Hrun & Hid & _).
  exists p, s1. split; [exact Hrun | exact Hid].
Defined.


Section MoreCommandFacts.

Context {Net : Type}.
Local Abbreviation Sys := (@Sys Net).
Variable is_inplace_method : string -> bool.
Variable command_guard : string -> M Sys unit.
Variable call_method : Callee -> string -> list Value -> Kwargs -> M Sys PyVal.
Variable call_function : string -> list Value -> Kwargs -> M Sys PyVal.
Variable foreign_handler : Handler -> Message -> M Sys PyVal.

Local Abbreviation execute_computation_action' :=
  (execute_computation_action is_inplace_method command_guard call_method call_function).
Local Abbreviation recv_msg' :=
  (recv_msg is_inplace_method command_guard call_method call_function foreign_handler).

(** X25: a command whose target is an integer id that is not stored fails
    with [ObjectNotFoundError] and changes nothing; when the id is stored
    but the object is flagged private, the command returns [None] right after
    the lookup.  In neither case is any operation invoked. *)
Theorem execute_target_absent_or_private (s : Sys) (action : ComputationAction) (z : Z) :
  target action = Some (VInt z) ->
  (registered s !! KInt z = None ->
   execute_computation_action' action s = (Raise (ObjectNotFoundError (KInt z)), s))
  ∧ (∀ obj, registered s !! KInt z = Some obj -> obj_private obj = Some true ->
       execute_computation_action' action s = (Ok PyNone, (get_obj (KInt z) s).2)).
Proof.
  intros Htarget. split.
  - intros Habs. unfold execute_computation_action, obtain_response, bind.
    rewrite Htarget. unfold resolve_target, bind.
    rewrite (get_obj_absent s _ Habs). reflexivity.
  - intros obj Hobj Hpriv. unfold execute_computation_action, obtain_response, bind.
    rewrite Htarget. unfold resolve_target, bind.
    rewrite (get_obj_stored s _ obj Hobj), Hpriv. reflexivity.
Qed.

(** X26: a command on a stored object gives [None] back, and registers
    nothing, when its operation is an in-place one, whatever the operation
    returned, and when the operation itself returned [None]: the state after
    the command is the state the operation left. *)
Theorem execute_without_response (s s1 s2 : Sys) (action : ComputationAction) (z : Z)
    (o : Obj) :
  target action = Some (VInt z) ->
  get_obj (KInt z) s = (Ok (Some o), s1) ->
  (is_inplace_method (name action) = true ->
   ∀ r, call_method (OnObject o) (name action) (args action) (kwargs action) s1 = (Ok r, s2) ->
        execute_computation_action' action s = (Ok PyNone, s2))
  ∧ (is_inplace_method (name action) = false ->
     call_method (OnObject o) (name action) (args action) (kwargs action) s1
     = (Ok PyNone, s2) ->
     execute_computation_action' action s = (Ok PyNone, s2)).
Proof.
  intros Htarget Hget. split.
  - intros Hin r Hcall. unfold execute_computation_action, obtain_response, bind.
    rewrite Htarget. unfold resolve_target, bind.
    rewrite Hget. simpl. rewrite Hin, Hcall. reflexivity.
  - intros Hin Hcall. unfold execute_computation_action, obtain_response, bind.
    rewrite Htarget. unfold resolve_target, bind.
    rewrite Hget. simpl. rewrite Hin.
    unfold except_TypeError. rewrite Hcall. reflexivity.
Qed.

(** X27: a command whose target is a name other than ["self"] is refused
    with [AssertionError] unless the search for that name finds exactly one
    object. *)
Theorem execute_named_target_not_unique (s s1 : Sys) (action : ComputationAction)
    (text : string) (res : list (option Obj)) :
  target action = Some (VStr text) ->
  text ≠ "self" ->
  search (QTerm (KStr text)) s = (Ok res, s1) ->
  length res ≠ 1%nat ->
  execute_computation_action' action s = (Raise AssertionError, s1).
Proof.
  intros Htarget Hself Hsearch Hlen.
  unfold execute_computation_action, obtain_response, bind.
  rewrite Htarget. unfold resolve_target, bind.
  apply String.eqb_neq in Hself. rewrite Hself, Hsearch.
  destruct res as [|[found|] [|second rest]]; simpl in Hlen; try reflexivity;
    contradiction Hlen; reflexivity.
Qed.

(** What decoding the arguments gives: every [bytes] argument replaced by
    the string it encodes, or [UnicodeDecodeError] when one of them is not
    well-formed UTF-8. *)
Lemma decode_args_ok (args_ new_args : list Value) :
  decode_args args_ = Ok new_args ->
  new_args = (fun arg => match arg with VBytes text => VStr text | _ => arg end) <$> args_
  ∧ ∀ text, VBytes text ∈ args_ -> utf8_valid (bytes_of text) = true.
Proof.
  revert new_args. induction args_ as [|arg rest IH]; intros new_args Hdec; simpl in Hdec.
  - inversion Hdec. split; [reflexivity|]. intros text Hin. apply elem_of_nil in Hin.
    contradiction.
  - destruct (decode_arg arg) as [new_arg|e] eqn:Harg; [|discriminate].
    destruct (decode_args rest) as [rest'|e] eqn:Hrest; [|discriminate].
    inversion Hdec; subst. destruct (IH _ eq_refl) as [Hmap Hvalid].
    assert (Hone : new_arg = match arg with VBytes text => VStr text | _ => arg end
                   ∧ ∀ text, arg = VBytes text -> utf8_valid (bytes_of text) = true).
    { destruct arg; simpl in Harg; try (inversion Harg; split; [reflexivity|discriminate]).
      unfold decode_utf8 in Harg. destruct (utf8_valid (bytes_of s)) eqn:Hv; [|discriminate].
      inversion Harg. split; [reflexivity|]. intros text Heq. inversion Heq; subst.
      exact Hv. }
    destruct Hone as [Hnew Harg_valid]. split.
    + rewrite fmap_cons. rewrite <- Hmap, <- Hnew. reflexivity.
    + intros text Hin. apply elem_of_cons in Hin as [Heq|Hin].
      * apply Harg_valid. symmetry. exact Heq.
      * apply Hvalid. exact Hin.
Qed.

Lemma decode_args_raise (args_ : list Value) (e : Exn) :
  decode_args args_ = Raise e ->
  e = UnicodeDecodeError
  ∧ ∃ text, VBytes text ∈ args_ ∧ utf8_valid (bytes_of text) = false.
Proof.
  induction args_ as [|arg rest IH]; intros Hdec; simpl in Hdec; [discriminate|].
  destruct (decode_arg arg) as [new_arg|e'] eqn:Harg.
  - destruct (decode_args rest) as [rest'|e'] eqn:Hrest; [discriminate|].
    inversion Hdec; subst. destruct (IH eq_refl) as (He & text & Hin & Hv).
    split; [exact He|]. exists text. split; [right; exact Hin | exact Hv].
  - inversion Hdec; subst.
    destruct arg; simpl in Harg; try discriminate.
    unfold decode_utf8 in Harg. destruct (utf8_valid (bytes_of s)) eqn:Hv; [discriminate|].
    inversion Harg. split; [reflexivity|]. exists s. split; [left | exact Hv].
Qed.

(** X28: for a method that is not in place, on whatever the target resolved
    to, an exception of the call other than [TypeError] is passed on without
    a second call.  A [TypeError] makes the worker decode every [bytes]
    argument as UTF-8: when one of them is not well-formed, the command fails
    with [UnicodeDecodeError] and there is no second call; otherwise the
    method is called once more with each [bytes] argument replaced by its
    string, and the command goes on with what that second call does: its
    exception is the command's, [None] makes the command return [None], and
    any other response is registered as the response of a first call would
    be. *)
Theorem execute_retries_on_type_error (s s0 s1 : Sys) (action : ComputationAction)
    (_self : Value) (callee : Callee) :
  target action = Some _self ->
  resolve_target _self s = (Ok (Some callee), s0) ->
  is_inplace_method (name action) = false ->
  (∀ e, call_method callee (name action) (args action) (kwargs action) s0 = (Raise e, s1) ->
        e ≠ TypeError ->
        execute_computation_action' action s = (Raise e, s1))
  ∧ (call_method callee (name action) (args action) (kwargs action) s0
     = (Raise TypeError, s1) ->
     (∀ e, decode_args (args action) = Raise e ->
           e = UnicodeDecodeError
           ∧ (∃ text, VBytes text ∈ args action ∧ utf8_valid (bytes_of text) = false)
           ∧ execute_computation_action' action s = (Raise UnicodeDecodeError, s1))
     ∧ (∀ new_args, decode_args (args action) = Ok new_args ->
          new_args = (fun arg => match arg with VBytes text => VStr text | _ => arg end)
                     <$> args action
          ∧ (∀ e2 s2, call_method callee (name action) new_args (kwargs action) s1
                      = (Raise e2, s2) ->
                      execute_computation_action' action s = (Raise e2, s2))
          ∧ (∀ s2, call_method callee (name action) new_args (kwargs action) s1
                   = (Ok PyNone, s2) ->
                   execute_computation_action' action s = (Ok PyNone, s2))
          ∧ (∀ response s2, call_method callee (name action) new_args (kwargs action) s1
                            = (Ok response, s2) ->
                            response ≠ PyNone ->
                            execute_computation_action' action s
                            = bind_response (name action) response (return_ids action)
                                (return_value action) s2))).
Proof.
  intros Htarget Hres Hin.
  assert (Hrun : execute_computation_action' action s
                 = (obtained <- (response <- except_TypeError
                                    (call_method callee (name action) (args action)
                                       (kwargs action))
                                    (new_args <- of_result (decode_args (args action)) ;;
                                     call_method callee (name action) new_args
                                       (kwargs action)) ;;
                                  ret (Response response)) ;;
                    match obtained with
                    | Returned => ret PyNone
                    | Response (One VNone) => ret PyNone
                    | Response response =>
                        bind_response (name action) response (return_ids action)
                          (return_value action)
                    end) s0).
  { unfold execute_computation_action, obtain_response.
    rewrite Htarget. unfold bind at 1 2. rewrite Hres. cbn beta iota. rewrite Hin.
    reflexivity. }
  rewrite Hrun. clear Hrun.
  split; [|intros Hfirst; split].
  - intros e Hcall He. unfold bind, except_TypeError. rewrite Hcall.
    destruct e; try reflexivity. contradiction He. reflexivity.
  - intros e Hdec. destruct (decode_args_raise _ _ Hdec) as [He Hbad].
    split; [exact He|]. split; [exact Hbad|]. subst e.
    unfold bind, except_TypeError, of_result. rewrite Hfirst, Hdec. reflexivity.
  - intros new_args Hdec. split; [apply (decode_args_ok _ _ Hdec)|].
    split; [|split].
    + intros e2 s2 Hsecond. unfold bind, except_TypeError, of_result.
      rewrite Hfirst, Hdec, Hsecond. reflexivity.
    + intros s2 Hsecond. unfold bind, except_TypeError, of_result.
      rewrite Hfirst, Hdec, Hsecond. reflexivity.
    + intros response s2 Hsecond Hnone. unfold bind at 1 2 3, except_TypeError, of_result.
      rewrite Hfirst, Hdec, Hsecond. cbn beta iota.
      destruct response as [v|l]; [|reflexivity].
      destruct v; try reflexivity. contradiction Hnone. reflexivity.
Qed.

Lemma get_obj_history (s : Sys) (k : Key) :
  msg_history (this (get_obj k s).2) = msg_history (this s)
  ∧ is_client_worker (this (get_obj k s).2) = is_client_worker (this s).
Proof.
  destruct (registered s !! k) as [obj|] eqn:Hk.
  - rewrite (get_obj_stored s k obj Hk). split; reflexivity.
  - rewrite (get_obj_absent s k Hk). split; reflexivity.
Qed.

Lemma py_index_last {A} (l : list A) (x : A) : py_index (l ++ [x]) (-1) = Some x.
Proof.
  unfold py_index. rewrite length_app. simpl length.
  destruct (0 <=? -1)%Z eqn:H0; [apply Z.leb_le in H0; lia|].
  destruct (- Z.of_nat (length l + 1) <=? -1)%Z eqn:H1;
    [|apply Z.leb_gt in H1; lia].
  replace (Z.to_nat (Z.of_nat (length l + 1) + -1)) with (length l) by lia.
  apply list_lookup_middle. reflexivity.
Qed.

(** X29: [recv_msg] saves the message before it routes it.  For a message
    answered by [is_object_none], [respond_to_obj_req] or the delete handler,
    the history after the call is the history before followed by the
    message when [log_msgs] is set, also when the handler raised, and is
    unchanged when it is not set; with [log_msgs] set, [_get_msg(-1)] then
    gives the message back. *)
Theorem recv_msg_history (s : Sys) (msg : Message) :
  (∃ k, msg = IsNoneMessage k)
  ∨ (∃ k user reason, msg = ObjectRequestMessage k user reason)
  ∨ (∃ k, msg = ForceObjectDeleteMessage k) ->
  msg_history (this (recv_msg' msg s).2)
  = (if log_msgs (this s) then (msg_history (this s) ++ [msg])%list
     else msg_history (this s))
  ∧ (log_msgs (this s) = true -> _get_msg (-1) (this (recv_msg' msg s).2) = Some msg).
Proof.
  intros Hmsg.
  assert (Hhist : msg_history (this (recv_msg' msg s).2)
                  = msg_history (this (save_message msg s).2)).
  { unfold recv_msg, bind.
    assert (Hsave : ∃ s0, save_message msg s = (Ok tt, s0)).
    { unfold save_message, bind, get_this. destruct (log_msgs (this s)); eexists;
        reflexivity. }
    destruct Hsave as [s0 Hsave]. rewrite Hsave. cbn [snd].
    destruct Hmsg as [[k ->]|[(k & user & reason & ->)|[k ->]]]; cbn [type_of].
    - replace (_message_router !! IsNoneMessageT) with (Some is_object_none_h)
        by (vm_compute; reflexivity).
      cbn [run_handler]. unfold is_object_none, bind, get_this.
      destruct (_objects (object_store (this s0)) !! k); [|reflexivity].
      pose proof (get_obj_history s0 k) as [Hh _].
      destruct (get_obj k s0) as [[r|e] s1]; exact Hh.
    - replace (_message_router !! ObjectRequestMessageT) with (Some respond_to_obj_req_h)
        by (vm_compute; reflexivity).
      cbn [run_handler]. unfold respond_to_obj_req, bind.
      pose proof (get_obj_history s0 k) as [Hh _].
      destruct (get_obj k s0) as [[r|e] s1]; [|exact Hh]. cbn [snd] in Hh.
      destruct (match r with
                | Some o => match obj_allow o with
                            | Some allow => negb (allow user)
                            | None => false
                            end
                | None => false
                end); [exact Hh|].
      unfold de_register_obj, bind, get_this.
      destruct (is_client_worker (this s1)); exact Hh.
    - replace (_message_router !! ForceObjectDeleteMessageT)
        with (Some handle_force_delete_object_msg_h) by (vm_compute; reflexivity).
      reflexivity. }
  assert (Hsaved : msg_history (this (save_message msg s).2)
                   = (if log_msgs (this s) then (msg_history (this s) ++ [msg])%list
                      else msg_history (this s))).
  { unfold save_message, bind, get_this. destruct (log_msgs (this s)); reflexivity. }
  split.
  - rewrite Hhist. exact Hsaved.
  - intros Hlog. unfold _get_msg. rewrite Hhist, Hsaved, Hlog. apply py_index_last.
Qed.

End MoreCommandFacts.

Section MorePlanFacts.

Context {Net : Type}.
Local Abbreviation Sys := (@Sys Net).
Variable FETCH_PLAN FETCH_PROTOCOL : string.
Variable is_plan is_protocol : Obj -> bool.
Variable copy_of : Obj -> Obj.

Local Abbreviation execute_plan_command' :=
  (execute_plan_command FETCH_PLAN FETCH_PROTOCOL is_plan is_protocol copy_of).

(** X30: [execute_plan_command] raises [PlanCommandUnknownError] with the
    name for a command that is neither of the two fetch commands.  The fetch
    of a plan answers with the stored object when it is a plan, with its copy
    when [copy] is set, and with [None] for any other object or a missing id;
    the fetch of a protocol does the same without ever copying.  Neither
    fetch raises for a missing id, looks at the privacy flag, or changes the
    worker. *)
Theorem execute_plan_command_spec (s : Sys) :
  (∀ (command_name : string) (args_ : Key * bool),
      command_name ≠ FETCH_PLAN -> command_name ≠ FETCH_PROTOCOL ->
      execute_plan_command' command_name args_ s
      = (Raise (PlanCommandUnknownError command_name), s))
  ∧ (∀ (k : Key) (copy : bool),
      FETCH_PLAN ≠ FETCH_PROTOCOL ->
      execute_plan_command' FETCH_PLAN (k, copy) s
      = (Ok (match registered s !! k with
             | Some candidate =>
                 if is_plan candidate
                 then Some (if copy then copy_of candidate else candidate)
                 else None
             | None => None
             end), s))
  ∧ (∀ (k : Key) (copy : bool),
      execute_plan_command' FETCH_PROTOCOL (k, copy) s
      = (Ok (match registered s !! k with
             | Some candidate => if is_protocol candidate then Some candidate else None
             | None => None
             end), s)).
Proof.
  unfold execute_plan_command, _plan_command_router, dict_literal; simpl.
  split; [|split].
  - intros command_name args_ Hplan Hprotocol.
    rewrite lookup_insert_ne by congruence. rewrite lookup_insert_ne by congruence.
    rewrite lookup_empty. reflexivity.
  - intros k copy Hne.
    rewrite lookup_insert_ne by congruence. rewrite lookup_insert_eq.
    unfold _fetch_plan_remote, bind, get_this, store_get_obj, registered; simpl.
    destruct (_objects (object_store (this s)) !! k) as [candidate|]; [|reflexivity].
    destruct (is_plan candidate); [destruct copy|]; reflexivity.
  - intros k copy. rewrite lookup_insert_eq.
    unfold _fetch_protocol_remote, bind, get_this, store_get_obj, registered; simpl.
    destruct (_objects (object_store (this s)) !! k) as [candidate|]; [|reflexivity].
    destruct (is_protocol candidate); reflexivity.
Qed.

End MorePlanFacts.

Lemma execute_target_absent_or_private_witness :
  sample_execute (mkComputation "add" (Some (VInt 99)) [] [] [KInt 11] false) bob_sys
  = (Raise (ObjectNotFoundError (KInt 99)), bob_sys)
  ∧ sample_execute (mkComputation "add" (Some (VInt 7)) [] [] [KInt 11] false) bob_sys
    = (Ok PyNone, (get_obj (KInt 7) bob_sys).2).
Proof.
  split.
  - apply (proj1 (execute_target_absent_or_private (fun _ => false) (fun _ => ret tt)
                    sample_call_method sample_call_function bob_sys
                    (mkComputation "add" (Some (VInt 99)) [] [] [KInt 11] false) 99 eq_refl)).
    vm_compute. reflexivity.
  - apply (proj2 (execute_target_absent_or_private (fun _ => false) (fun _ => ret tt)
                    sample_call_method sample_call_function bob_sys
                    (mkComputation "add" (Some (VInt 7)) [] [] [KInt 11] false) 7 eq_refl)
             secret_y).
    + vm_compute. reflexivity.
    + reflexivity.
Defined.

Lemma execute_without_response_witness :
  execute_computation_action (fun _ => true) (fun _ => ret tt)
    sample_call_method sample_call_function
    (mkComputation "add_" (Some (VInt 1000)) [] [] [KInt 11] false) bob_sys
  = (Ok PyNone, (get_obj (KInt 1000) bob_sys).2).
Proof.
  apply (proj1 (execute_without_response (fun _ => true) (fun _ => ret tt)
                  sample_call_method sample_call_function
                  bob_sys (get_obj (KInt 1000) bob_sys).2 (get_obj (KInt 1000) bob_sys).2
                  (mkComputation "add_" (Some (VInt 1000)) [] [] [KInt 11] false)
                  1000 (gc_forced_off tensor_x) eq_refl
                  ltac:(vm_compute; reflexivity))
           eq_refl (One (VObj (gc_forced_off tensor_x)))).
  vm_compute. reflexivity.
Defined.

Lemma execute_named_target_not_unique_witness :
  sample_execute (mkComputation "add" (Some (VStr "nowhere")) [] [] [KInt 11] false) bob_sys
  = (Raise AssertionError, bob_sys).
Proof.
  apply (execute_named_target_not_unique (fun _ => false) (fun _ => ret tt)
           sample_call_method sample_call_function bob_sys bob_sys
           (mkComputation "add" (Some (VStr "nowhere")) [] [] [KInt 11] false)
           "nowhere" []).
  - reflexivity.
  - discriminate.
  - vm_compute. reflexivity.
  - discriminate.
Defined.

Lemma execute_retries_on_type_error_witness :
  execute_computation_action (fun _ => false) (fun _ => ret tt)
    (fun _ _ args_ _ =>
       match args_ with
       | VBytes _ :: _ => raise TypeError
       | _ => ret PyNone
       end)
    sample_call_function
    (mkComputation "set_name" (Some (VStr "self")) [VBytes "bob"] [] [] false) bob_sys
  = (Ok PyNone, bob_sys).
Proof.
  destruct (execute_retries_on_type_error (fun _ => false) (fun _ => ret tt)
              (fun _ _ args_ _ =>
                 match args_ with
                 | VBytes _ :: _ => raise TypeError
                 | _ => ret PyNone
                 end)
              sample_call_function bob_sys bob_sys bob_sys
              (mkComputation "set_name" (Some (VStr "self")) [VBytes "bob"] [] [] false)
              (VStr "self") OnWorker eq_refl eq_refl eq_refl) as [_ Hretry].
  destruct (Hretry eq_refl) as [_ Hdecoded].
  destruct (Hdecoded [VStr "bob"] eq_refl) as (_ & _ & Hnone & _).
  apply Hnone. reflexivity.
Defined.

(** A [bytes] argument that is not UTF-8 (the single byte [0xFF]) turns the
    [TypeError] of the first call into a [UnicodeDecodeError]. *)
Example execute_retry_undecodable :
  execute_computation_action (fun _ => false) (fun _ => ret tt)
    (fun _ _ args_ _ =>
       match args_ with
       | VBytes _ :: _ => raise TypeError
       | _ => ret PyNone
       end)
    sample_call_function
    (mkComputation "set_name" (Some (VStr "self"))
       [VBytes (String (Ascii.ascii_of_nat 255) EmptyString)] [] [] false) bob_sys
  = (Raise UnicodeDecodeError, bob_sys).
Proof. vm_compute. reflexivity. Qed.

Lemma recv_msg_history_witness :
  msg_history
    (this (recv_msg (fun _ => false) (fun _ => ret tt) sample_call_method
             sample_call_function (fun _ _ => ret PyNone) (IsNoneMessage (KInt 99))
             (with_this (mkWorker bob false true [] (object_store (this bob_sys))
                           (_known_workers (this bob_sys))) bob_sys)).2)
  = [IsNoneMessage (KInt 99)].
Proof.
  apply (proj1 (recv_msg_history (fun _ => false) (fun _ => ret tt) sample_call_method
                  sample_call_function (fun _ _ => ret PyNone)
                  (with_this (mkWorker bob false true [] (object_store (this bob_sys))
                                (_known_workers (this bob_sys))) bob_sys)
                  (IsNoneMessage (KInt 99))
                  (or_introl (ex_intro _ (KInt 99) eq_refl)))).
Defined.

Lemma execute_plan_command_spec_witness :
  execute_plan_command "fetch_plan" "fetch_protocol" (fun _ => true) (fun _ => false)
    (fun o => o) "run_plan" (KInt 1000, false) bob_sys
  = (Raise (PlanCommandUnknownError "run_plan"), bob_sys)
  ∧ execute_plan_command "fetch_plan" "fetch_protocol" (fun _ => true) (fun _ => false)
      (fun o => o) "fetch_plan" (KInt 7, false) bob_sys
    = (Ok (Some secret_y), bob_sys).
Proof.
  destruct (execute_plan_command_spec "fetch_plan" "fetch_protocol" (fun _ => true)
              (fun _ => false) (fun o => o) bob_sys) as (Hunknown & Hplan & _).
  split.
  - apply Hunknown; discriminate.
  - rewrite Hplan by discriminate. vm_compute. reflexivity.
Defined.
